(** * SmartThings switch and media-player platforms

    A shallow embedding of [custom_components/smartthings/switch.py] and
    [custom_components/smartthings/media_player.py], together with the
    properties of the capability registry and of the on/off command
    handlers of the three switch adapters. *)

From Stdlib Require Import ZArith Ascii String List Bool Lia.
From stdpp Require Import base option strings list gmap.

Local Open Scope string_scope.
Local Open Scope Z_scope.

(** ** Python values

    The fragment of Python's dynamic values that the two modules handle:
    [None], booleans, integers, strings, lists, and dictionaries with
    string keys (kept in insertion order).  Strings are sequences of
    one-byte characters, which is what the identifiers and option names of
    the cloud API are. *)

#[warnings="-register-all"]
Inductive pyval : Type :=
| VNone
| VBool (b : bool)
| VInt (n : Z)
| VStr (s : string)
| VList (xs : list pyval)
| VDict (kvs : list (string * pyval)).

(** Exceptions that the modelled expressions can raise. [RemoteError]
    stands for whatever the awaited cloud call raises on a transport
    failure. *)
Inductive exn : Type :=
| TypeError
| KeyError
| IndexError
| RemoteError.

Inductive outcome (A : Type) : Type :=
| Ok (a : A)
| Raise (e : exn).
Arguments Ok {A} a.
Arguments Raise {A} e.

Module Py.

(** Lookup in an insertion-ordered dictionary. *)
Fixpoint assoc {A : Type} (k : string) (kvs : list (string * A)) : option A :=
  match kvs with
  | [] => None
  | (k', v) :: rest => if String.eqb k k' then Some v else assoc k rest
  end.

(** [a == b].  [bool] is a subclass of [int], so [True == 1]. *)
Fixpoint eq (a b : pyval) {struct a} : bool :=
  match a, b with
  | VNone, VNone => true
  | VBool x, VBool y => Bool.eqb x y
  | VBool x, VInt n => Z.eqb (Z.b2z x) n
  | VInt n, VBool y => Z.eqb n (Z.b2z y)
  | VInt m, VInt n => Z.eqb m n
  | VStr s, VStr t => String.eqb s t
  | VList xs, VList ys =>
      (fix go (xs ys : list pyval) {struct xs} : bool :=
         match xs, ys with
         | [], [] => true
         | x :: xs', y :: ys' => eq x y && go xs' ys'
         | _, _ => false
         end) xs ys
  | VDict kvs, VDict kws =>
      Nat.eqb (length kvs) (length kws) &&
      (fix go (kvs : list (string * pyval)) {struct kvs} : bool :=
         match kvs with
         | [] => true
         | (k, v) :: rest =>
             match assoc k kws with
             | Some w => eq v w
             | None => false
             end && go rest
         end) kvs
  | _, _ => false
  end.

(** Truth value of an object, as tested by [if result:]. *)
Definition truthy (v : pyval) : bool :=
  match v with
  | VNone => false
  | VBool b => b
  | VInt n => negb (Z.eqb n 0)
  | VStr s => negb (String.eqb s "")
  | VList xs => negb (Nat.eqb (length xs) 0)
  | VDict kvs => negb (Nat.eqb (length kvs) 0)
  end.

(** [v is not None]. *)
Definition is_not_none (v : pyval) : bool :=
  match v with
  | VNone => false
  | _ => true
  end.

(** [len(v)]. *)
Definition len (v : pyval) : outcome Z :=
  match v with
  | VStr s => Ok (Z.of_nat (String.length s))
  | VList xs => Ok (Z.of_nat (length xs))
  | VDict kvs => Ok (Z.of_nat (length kvs))
  | _ => Raise TypeError
  end.

(** Position [i] of a sequence of length [n], negative indices counting
    from the end. *)
Definition index (i : Z) (n : nat) : option nat :=
  let j := if Z.ltb i 0 then i + Z.of_nat n else i in
  if Z.leb 0 j && Z.ltb j (Z.of_nat n) then Some (Z.to_nat j) else None.

Definition char_at (s : string) (i : nat) : option pyval :=
  match String.get i s with
  | Some c => Some (VStr (String c EmptyString))
  | None => None
  end.

(** An integer subscript; [True] and [False] index as [1] and [0]. *)
Definition as_index (key : pyval) : option Z :=
  match key with
  | VInt i => Some i
  | VBool b => Some (Z.b2z b)
  | _ => None
  end.

(** [xs[i]] on a list and [s[i]] on a string. *)
Definition list_item (xs : list pyval) (i : Z) : outcome pyval :=
  match index i (length xs) with
  | Some j =>
      match nth_error xs j with
      | Some v => Ok v
      | None => Raise IndexError
      end
  | None => Raise IndexError
  end.

Definition str_item (s : string) (i : Z) : outcome pyval :=
  match index i (String.length s) with
  | Some j =>
      match char_at s j with
      | Some v => Ok v
      | None => Raise IndexError
      end
  | None => Raise IndexError
  end.

(** [container[key]]. *)
Definition getitem (container key : pyval) : outcome pyval :=
  match container with
  | VDict kvs =>
      match key with
      | VStr k =>
          match assoc k kvs with
          | Some v => Ok v
          | None => Raise KeyError
          end
      | VList _ | VDict _ => Raise TypeError
      | _ => Raise KeyError
      end
  | VList xs =>
      match as_index key with
      | Some i => list_item xs i
      | None => Raise TypeError
      end
  | VStr s =>
      match as_index key with
      | Some i => str_item s i
      | None => Raise TypeError
      end
  | _ => Raise TypeError
  end.

(** [sub in s] on strings. *)
Fixpoint substring (sub s : string) {struct s} : bool :=
  String.prefix sub s ||
  match s with
  | EmptyString => false
  | String _ s' => substring sub s'
  end.

(** [x in container]. *)
Definition contains (x container : pyval) : outcome bool :=
  match container with
  | VList xs => Ok (existsb (eq x) xs)
  | VStr s =>
      match x with
      | VStr sub => Ok (substring sub s)
      | _ => Raise TypeError
      end
  | VDict kvs =>
      match x with
      | VStr k => Ok (bool_decide (is_Some (assoc k kvs)))
      | VList _ | VDict _ => Raise TypeError
      | _ => Ok false
      end
  | _ => Raise TypeError
  end.

(** [d[k] = v] on an insertion-ordered dictionary: an existing key keeps
    its position. *)
Fixpoint dict_set (k : string) (v : pyval) (d : list (string * pyval))
  : list (string * pyval) :=
  match d with
  | [] => [(k, v)]
  | (k', v') :: rest =>
      if String.eqb k k' then (k', v) :: rest else (k', v') :: dict_set k v rest
  end.

Fixpoint str_map (f : ascii -> ascii) (s : string) : string :=
  match s with
  | EmptyString => EmptyString
  | String c rest => String (f c) (str_map f rest)
  end.

(** [s.lower()]: the letters A to Z become a to z. *)
Definition lower_char (c : ascii) : ascii :=
  let n := nat_of_ascii c in
  if Nat.leb 65 n && Nat.leb n 90 then ascii_of_nat (n + 32) else c.

Definition lower (s : string) : string := str_map lower_char s.

(** [s.replace(old, new)] for one-character [old] and [new]. *)
Definition replace_char (old new : ascii) (s : string) : string :=
  str_map (fun c => if Ascii.eqb c old then new else c) s.

End Py.

(** ** The cloud client's device objects

    The client library ([pysmartthings]) is an external collaborator and
    not part of the repository.  What the two modules consume of it is the
    contract of section 6 of the specification: [device.status] is an
    attribute-keyed snapshot with named accessors, bracket access and
    in-place value patching; [device.command] and [device.execute] report
    success as a boolean (or raise); [device.switch_on/switch_off(set_status)]
    issue the built-in switch command and, when asked to, patch the snapshot
    optimistically. *)

(** Modelled from the spec: the capability identifiers of the client
    library ([Capability.switch] and the others), as the strings the cloud
    reports. *)
Module Capability.
Definition switch := "switch".
Definition audio_mute := "audioMute".
Definition audio_volume := "audioVolume".
Definition execute := "execute".
Definition media_input_source := "mediaInputSource".
Definition media_playback := "mediaPlayback".
Definition media_playback_repeat := "mediaPlaybackRepeat".
Definition media_playback_shuffle := "mediaPlaybackShuffle".
Definition tv_channel := "tvChannel".
Definition power_meter := "powerMeter".
Definition power_consumption_report := "powerConsumptionReport".
Definition power_source := "powerSource".
End Capability.

(** Modelled from the spec: the attribute names of the client library. *)
Module Attribute.
Definition switch := "switch".
Definition mute := "mute".
Definition volume := "volume".
Definition data := "data".
Definition mnmn := "mnmn".
End Attribute.

(** Modelled from the spec: one entry of the status snapshot, a value with
    its unit and auxiliary data. *)
Module Status.
Record t : Type := mk {
  value : pyval;
  unit : pyval;
  data : pyval
}.
End Status.

Definition STATUS_NONE : Status.t :=
  Status.mk VNone VNone VNone.

(** Modelled from the spec: bracket access [status.attributes[a]]; an
    attribute that the snapshot lacks reads as [STATUS_NONE]. *)
Definition attributes (st : gmap string Status.t) (a : string) : Status.t :=
  default STATUS_NONE (st !! a).

(** Modelled from the spec: in-place value patching,
    [status.update_attribute_value(a, v)], which replaces the value and
    keeps unit and data. *)
Definition patch_attribute (a : string) (v : pyval) (st : gmap string Status.t)
  : gmap string Status.t :=
  <[a := Status.mk v (Status.unit (attributes st a)) (Status.data (attributes st a))]> st.

(** Modelled from the spec: the value an attribute holds when it is on
    (off), for the two attributes of the registry that the library exposes
    as booleans. *)
Definition ATTRIBUTE_ON_VALUES : list (string * pyval) :=
  [(Attribute.mute, VStr "muted"); (Attribute.switch, VStr "on")].

Definition ATTRIBUTE_OFF_VALUES : list (string * pyval) :=
  [(Attribute.mute, VStr "unmuted"); (Attribute.switch, VStr "off")].

(** Modelled from the spec: direct attribute access,
    [getattr(status, name)], for the three accessors of the client that the
    statements below read through it: [switch] and [mute] are boolean views
    of the stored value, and [volume] is the stored value itself.  For any
    other name the definition falls back on the stored value; the client
    promises nothing of the kind (it has no accessor for some names and
    converts the value for others), and no statement below reads another
    name through this accessor. *)
Definition status_getattr (st : gmap string Status.t) (name : string) : pyval :=
  match Py.assoc name ATTRIBUTE_ON_VALUES with
  | Some on => VBool (Py.eq (Status.value (attributes st name)) on)
  | None => Status.value (attributes st name)
  end.

(** Observable effects, in the order in which they happen. *)
Inductive effect : Type :=
| CallCommand (component capability command : string) (args : list pyval)
| CallExecute (page : string) (payload : option pyval)
| WriteHaState.

(** A device as the adapters see it: its cached snapshot, and the trace of
    remote calls and framework notifications issued so far. *)
Record World : Type := mkWorld {
  status : gmap string Status.t;
  trace : list effect
}.

(** Modelled from the spec: the fields of a device object that do not
    change, its identifier, its label and its type. *)
Record Device : Type := mkDevice {
  device_id : string;
  label : string;
  type : string
}.

(** ** Stateful, fallible computations *)

Definition M (S A : Type) : Type := S -> outcome A * S.

Definition ret {S A : Type} (a : A) : M S A := fun s => (Ok a, s).

Definition bind {S A B : Type} (m : M S A) (k : A -> M S B) : M S B :=
  fun s =>
    match m s with
    | (Ok a, s') => k a s'
    | (Raise e, s') => (Raise e, s')
    end.

Definition lift {S A : Type} (o : outcome A) : M S A := fun s => (o, s).

Definition gets {S A : Type} (f : S -> A) : M S A := fun s => (Ok (f s), s).

Definition modify {S : Type} (f : S -> S) : M S unit := fun s => (Ok tt, f s).

Definition when {S : Type} (b : bool) (m : M S unit) : M S unit :=
  if b then m else ret tt.

Declare Scope monad_scope.
Delimit Scope monad_scope with monad.
Notation "'let*' x ':=' m 'in' k" := (bind m (fun x => k))
  (at level 10, x name, m at level 100, k at level 200) : monad_scope.
Local Open Scope monad_scope.

(** ** Device operations *)

Definition emit (e : effect) : M World unit :=
  modify (fun w => {| status := status w; trace := trace w ++ [e] |}).

(** [status.update_attribute_value(a, v)]. *)
Definition update_attribute_value (a : string) (v : pyval) : M World unit :=
  modify (fun w => {| status := patch_attribute a v (status w); trace := trace w |}).

(** Modelled from the spec: [await device.command(component, capability,
    command, args)]; [resp] is what the cloud answers, a value or an
    exception. *)
Definition device_command (component capability command : string)
    (args : list pyval) (resp : outcome pyval) : M World pyval :=
  let* _ := emit (CallCommand component capability command args) in
  lift resp.

(** Modelled from the spec: [await device.execute(page, payload)]. *)
Definition device_execute (page : string) (payload : option pyval)
    (resp : outcome pyval) : M World pyval :=
  let* _ := emit (CallExecute page payload) in
  lift resp.

(** Modelled from the spec: the assignment [status.switch = b], which
    stores the on or the off value of the switch attribute. *)
Definition status_set_switch (b : bool) : M World unit :=
  match Py.assoc Attribute.switch (if b then ATTRIBUTE_ON_VALUES else ATTRIBUTE_OFF_VALUES) with
  | Some v => update_attribute_value Attribute.switch v
  | None => lift (Raise KeyError)
  end.

(** Modelled from the spec: [await device.switch_on(set_status)], the
    built-in switch command; the snapshot is patched when the command
    reports success and [set_status] asks for it. *)
Definition device_switch_on (set_status : bool) (resp : outcome pyval) : M World pyval :=
  let* result := device_command "main" Capability.switch "on" [] resp in
  let* _ := when (Py.truthy result && set_status) (status_set_switch true) in
  ret result.

(** Modelled from the spec: [await device.switch_off(set_status)]. *)
Definition device_switch_off (set_status : bool) (resp : outcome pyval) : M World pyval :=
  let* result := device_command "main" Capability.switch "off" [] resp in
  let* _ := when (Py.truthy result && set_status) (status_set_switch false) in
  ret result.

(** [self.async_write_ha_state()]. *)
Definition async_write_ha_state : M World unit := emit WriteHaState.

(** [c in capabilities] on a sequence of strings. *)
Definition str_in (c : string) (capabilities : list string) : bool :=
  existsb (String.eqb c) capabilities.

(** ** media_player.py *)

Module MediaPlayer.

(** The list [supported] built inside [get_capabilities]. *)
Definition supported : list string :=
  [ Capability.switch;
    Capability.media_input_source;
    Capability.media_playback;
    Capability.media_playback_repeat;
    Capability.media_playback_shuffle;
    Capability.audio_mute;
    Capability.audio_volume;
    Capability.tv_channel;
    Capability.power_meter;
    Capability.power_consumption_report;
    Capability.power_source ].

Definition get_capabilities (capabilities : list string) : option (list string) :=
  if forallb (fun capability => str_in capability capabilities) supported
  then Some supported
  else None.

(** *** SmartThingsMediaPlayer *)
Module SmartThingsMediaPlayer.

Definition async_turn_on (resp : outcome pyval) : M World unit :=
  let* _ := device_switch_on true resp in
  async_write_ha_state.

Definition async_turn_off (resp : outcome pyval) : M World unit :=
  let* _ := device_switch_off true resp in
  async_write_ha_state.

Definition is_on (w : World) : pyval :=
  status_getattr (status w) Attribute.switch.

Definition volume_level (w : World) : pyval :=
  status_getattr (status w) Attribute.volume.

End SmartThingsMediaPlayer.

End MediaPlayer.

(** ** switch.py *)

Module Switch.

Record Map : Type := mkMap {
  attribute : string;
  on_command : string;
  off_command : string;
  on_value : pyval;
  off_value : pyval;
  name : string;
  icon : option string;
  extra_state_attributes : option (list string)
}.

(** The registry, a dictionary literal; iteration follows insertion
    order. *)
Definition CAPABILITY_TO_SWITCH : list (string * list Map) :=
  [ (Capability.switch,
     [ mkMap Attribute.switch "switch_on" "switch_off"
             (VStr "on") (VStr "off") "Switch" None None ]);
    (Capability.audio_mute,
     [ mkMap Attribute.mute "setMute" "setMute"
             (VStr "muted") (VStr "unmuted") "Mute" (Some "mdi:volume-mute") None ]);
    ("custom.spiMode",
     [ mkMap "spiMode" "setSpiMode" "setSpiMode"
             (VStr "on") (VStr "off") "SPI Mode" None None ]);
    ("custom.autoCleaningMode",
     [ mkMap "autoCleaningMode" "setAutoCleaningMode" "setAutoCleaningMode"
             (VStr "on") (VStr "off") "Auto Cleaning Mode" (Some "mdi:shimmer") None ]) ].

(** Iterating the dictionary yields its keys. *)
Definition registry_keys : list string := map fst CAPABILITY_TO_SWITCH.

Definition get_capabilities (capabilities : list string) : list string :=
  List.filter (fun capability => str_in capability capabilities) registry_keys.

(** *** SmartThingsSwitch *)
Module SmartThingsSwitch.

Record t : Type := init {
  _attribute : string;
  _on_command : string;
  _off_command : string;
  _on_value : pyval;
  _off_value : pyval;
  _name : string;
  _icon : option string;
  _extra_state_attributes : option (list string)
}.

Definition async_turn_off (self : t) (resp : outcome pyval) : M World unit :=
  let* _ := device_switch_off true resp in
  async_write_ha_state.

Definition async_turn_on (self : t) (resp : outcome pyval) : M World unit :=
  let* _ := device_switch_on true resp in
  async_write_ha_state.

Definition is_on (self : t) (w : World) : pyval :=
  status_getattr (status w) (_attribute self).

Definition name (self : t) (d : Device) : string :=
  label d ++ " " ++ _name self.

Definition unique_id (self : t) (d : Device) : string :=
  device_id d ++ "." ++ _attribute self.

Definition icon (self : t) : option string := _icon self.

Definition extra_state_attributes (self : t) (w : World) : list (string * pyval) :=
  match _extra_state_attributes self with
  | None => []
  | Some attributes_ =>
      fold_left
        (fun state_attributes attribute =>
           let value := Status.value (attributes (status w) attribute) in
           if Py.is_not_none value
           then Py.dict_set attribute value state_attributes
           else state_attributes)
        attributes_ []
  end.

End SmartThingsSwitch.

(** *** SmartThingsCustomSwitch *)
Module SmartThingsCustomSwitch.

Record t : Type := init {
  _capability : string;
  _attribute : string;
  _on_command : string;
  _off_command : string;
  _on_value : pyval;
  _off_value : pyval;
  _name : string;
  _icon : option string;
  _extra_state_attributes : option (list string)
}.

Definition async_turn_off (self : t) (resp : outcome pyval) : M World unit :=
  let* result :=
    device_command "main" (_capability self) (_off_command self) [_off_value self] resp in
  let* _ :=
    when (Py.truthy result)
         (update_attribute_value (_attribute self) (_off_value self)) in
  async_write_ha_state.

Definition async_turn_on (self : t) (resp : outcome pyval) : M World unit :=
  let* result :=
    device_command "main" (_capability self) (_on_command self) [_on_value self] resp in
  let* _ :=
    when (Py.truthy result)
         (update_attribute_value (_attribute self) (_on_value self)) in
  async_write_ha_state.

Definition is_on (self : t) (w : World) : pyval :=
  if Py.is_not_none (_on_value self)
  then VBool (Py.eq (status_getattr (status w) (_attribute self)) (_on_value self))
  else status_getattr (status w) (_attribute self).

Definition name (self : t) (d : Device) : string :=
  label d ++ " " ++ _name self.

Definition unique_id (self : t) (d : Device) : string :=
  device_id d ++ "." ++ _attribute self.

Definition icon (self : t) : option string := _icon self.

Definition extra_state_attributes (self : t) (w : World) : list (string * pyval) :=
  match _extra_state_attributes self with
  | None => []
  | Some attributes_ =>
      fold_left
        (fun state_attributes attribute =>
           let value := Status.value (attributes (status w) attribute) in
           if Py.is_not_none value
           then Py.dict_set attribute value state_attributes
           else state_attributes)
        attributes_ []
  end.

End SmartThingsCustomSwitch.

(** *** SamsungOcfSwitch *)
Module SamsungOcfSwitch.

(** The constructor arguments, and the two flags [execute_state] and
    [init_bool] that the methods assign on the instance. *)
Record t : Type := mk {
  _page : string;
  _key : string;
  _on_value : pyval;
  _off_value : pyval;
  _name : string;
  _on_icon : option string;
  _off_icon : option string;
  execute_state : bool;
  init_bool : bool
}.

(** [__init__]; both flags start from the class attributes, [False]. *)
Definition init (page key : string) (on_value off_value : pyval)
    (name : string) (on_icon off_icon : option string) : t :=
  mk page key on_value off_value name on_icon off_icon false false.

(** The adapter instance together with the device it refers to. *)
Record state : Type := mkState {
  self : t;
  world : World
}.

Definition on_device {A : Type} (m : M World A) : M state A :=
  fun s => let (r, w) := m (world s) in (r, {| self := self s; world := w |}).

Definition set_execute_state (b : bool) : M state unit :=
  modify (fun s =>
    {| self := mk (_page (self s)) (_key (self s)) (_on_value (self s))
                  (_off_value (self s)) (_name (self s)) (_on_icon (self s))
                  (_off_icon (self s)) b (init_bool (self s));
       world := world s |}).

Definition set_init_bool (b : bool) : M state unit :=
  modify (fun s =>
    {| self := mk (_page (self s)) (_key (self s)) (_on_value (self s))
                  (_off_value (self s)) (_name (self s)) (_on_icon (self s))
                  (_off_icon (self s)) (execute_state (self s)) b;
       world := world s |}).

(** [asyncio.gather(self._device.execute(self._page))]: the page visit
    is issued and its result is not awaited. *)
Definition startup : M state unit :=
  let* me := gets self in
  on_device (emit (CallExecute (_page me) None)).

Definition async_turn_off (resp : outcome pyval) : M state unit :=
  let* me := gets self in
  let* result :=
    on_device (device_execute (_page me)
                 (Some (VDict [(_key me, _off_value me)])) resp) in
  let* _ :=
    when (Py.truthy result)
      (let* _ :=
         on_device (update_attribute_value "data"
                      (VDict [("payload", VDict [(_key me, _off_value me)])])) in
       set_execute_state false) in
  on_device async_write_ha_state.

Definition async_turn_on (resp : outcome pyval) : M state unit :=
  let* me := gets self in
  let* result :=
    on_device (device_execute (_page me)
                 (Some (VDict [(_key me, _on_value me)])) resp) in
  let* _ :=
    when (Py.truthy result)
      (let* _ :=
         on_device (update_attribute_value "data"
                      (VDict [("payload", VDict [(_key me, _on_value me)])])) in
       set_execute_state true) in
  on_device async_write_ha_state.

Definition is_on : M state bool :=
  let* me := gets self in
  let* _ := when (negb (init_bool me)) startup in
  let* entry := gets (fun s => attributes (status (world s)) Attribute.data) in
  let* href := lift (Py.getitem (Status.data entry) (VStr "href")) in
  let* _ :=
    if Py.eq href (VStr (_page me)) then
      let* _ := set_init_bool true in
      let* entry := gets (fun s => attributes (status (world s)) Attribute.data) in
      let* payload := lift (Py.getitem (Status.value entry) (VStr "payload")) in
      let* output := lift (Py.getitem payload (VStr (_key me))) in
      let* n := lift (Py.len (_on_value me)) in
      if n >? 1 then
        let* hit := lift (Py.contains (_on_value me) output) in
        if hit then set_execute_state true
        else
          let* hit := lift (Py.contains (_off_value me) output) in
          when hit (set_execute_state false)
      else
        let* first := lift (Py.getitem (_on_value me) (VInt 0)) in
        let* hit := lift (Py.contains first output) in
        if hit then set_execute_state true
        else
          let* first := lift (Py.getitem (_off_value me) (VInt 0)) in
          let* hit := lift (Py.contains first output) in
          when hit (set_execute_state false)
    else ret tt in
  gets (fun s => execute_state (self s)).

Definition icon : M state (option string) :=
  let* on := is_on in
  let* me := gets self in
  ret (if on then _on_icon me else _off_icon me).

Definition name (me : t) (d : Device) : string :=
  label d ++ " " ++ _name me.

Definition unique_id (me : t) (d : Device) : string :=
  let _unique_id := Py.replace_char " "%char "_"%char (Py.lower (_name me)) in
  device_id d ++ "." ++ _unique_id.

End SamsungOcfSwitch.

(** *** async_setup_entry

    The entities that the setup loop builds, without the device
    reference that each of them carries. *)
Inductive entity : Type :=
| Generic (sw : SmartThingsSwitch.t)
| Custom (sw : SmartThingsCustomSwitch.t)
| Ocf (sw : SamsungOcfSwitch.t).

(** The body of the loop over a device's assigned capabilities. *)
Definition switches_for_capability (capability : string) : outcome (list entity) :=
  match Py.assoc capability CAPABILITY_TO_SWITCH with
  | None => Raise KeyError
  | Some maps =>
      if str_in capability
           ["custom.autoCleaningMode"; "custom.spiMode"; Capability.audio_mute]
      then
        Ok (map (fun m =>
                   Custom (SmartThingsCustomSwitch.init capability
                             (attribute m) (on_command m) (off_command m)
                             (on_value m) (off_value m) (name m) (icon m)
                             (extra_state_attributes m))) maps)
      else
        Ok (map (fun m =>
                   Generic (SmartThingsSwitch.init
                              (attribute m) (on_command m) (off_command m)
                              (on_value m) (off_value m) (name m) (icon m)
                              (extra_state_attributes m))) maps)
  end.

(** The two entities added for a Samsung OCF climate device. *)
Definition samsung_ocf_switches : list entity :=
  [ Ocf (SamsungOcfSwitch.init "/mode/vs/0" "x.com.samsung.da.options"
           (VList [VStr "Light_Off"]) (VList [VStr "Light_On"])
           "Light" (Some "mdi:led-on") (Some "mdi:led-variant-off"));
    Custom (SmartThingsCustomSwitch.init "audioVolume" "volume"
              "setVolume" "setVolume" (VInt 100) (VInt 0)
              "Audio" (Some "mdi:volume-high") None) ].

(** The loop over the capabilities assigned to one device, extending the
    list [switches]. *)
Fixpoint extend_assigned (assigned : list string) (switches : list entity)
  : outcome (list entity) :=
  match assigned with
  | [] => Ok switches
  | capability :: rest =>
      match switches_for_capability capability with
      | Ok built => extend_assigned rest (switches ++ built)%list
      | Raise e => Raise e
      end
  end.

(** One round of the loop over the devices: [assigned] is
    [broker.get_assigned(device_id, "switch")] and [climate] is
    [broker.any_assigned(device_id, "climate")]. *)
Definition device_switches (d : Device) (w : World) (assigned : list string)
    (climate : bool) (switches : list entity) : outcome (list entity) :=
  match extend_assigned assigned switches with
  | Raise e => Raise e
  | Ok switches =>
      if Py.eq (Status.value (attributes (status w) Attribute.mnmn))
               (VStr "Samsung Electronics")
         && String.eqb (type d) "OCF"
      then
        let model := Status.value (attributes (status w) "binaryId") in
        if Py.truthy (VStr Capability.execute)
           && climate
           && negb (existsb (Py.eq model)
                      [VStr "SAC_SLIM1WAY"; VStr "SAC_BIG_SLIM1WAY"; VStr "MIM-H04EN"])
        then Ok (switches ++ samsung_ocf_switches)%list
        else Ok switches
      else Ok switches
  end.

End Switch.

(** ** Vocabulary of the statements *)

(** Running a handler from a state: its outcome and the state it leaves. *)
Definition outcome_of {S A : Type} (r : outcome A * S) : outcome A := fst r.
Definition state_after {S A : Type} (r : outcome A * S) : S := snd r.

(** The stored value of attribute [a] in the snapshot of [w]. *)
Definition snapshot_value (w : World) (a : string) : pyval :=
  Status.value (attributes (status w) a).

(** The attribute that each capability of the registry maps to. *)
Definition registry_attributes : list (string * string) :=
  flat_map (fun entry => map (fun m => (fst entry, Switch.attribute m)) (snd entry))
           Switch.CAPABILITY_TO_SWITCH.

(** The models for which the setup adds no paged switch. *)
Definition excluded_models : list string :=
  ["SAC_SLIM1WAY"; "SAC_BIG_SLIM1WAY"; "MIM-H04EN"].

(** The devices for which the setup adds the paged light switch and the
    volume switch: of type "OCF", made by "Samsung Electronics", with the
    climate platform assigned and a model that is not excluded. *)
Definition samsung_climate (d : Device) (w : World) (climate : bool) : Prop :=
  type d = "OCF"
  /\ climate = true
  /\ snapshot_value w Attribute.mnmn = VStr "Samsung Electronics"
  /\ forall m, In m excluded_models -> snapshot_value w "binaryId" <> VStr m.

(** The unique id of an entity of device [d], by its class. *)
Definition entity_unique_id (d : Device) (e : Switch.entity) : string :=
  match e with
  | Switch.Generic sw => Switch.SmartThingsSwitch.unique_id sw d
  | Switch.Custom sw => Switch.SmartThingsCustomSwitch.unique_id sw d
  | Switch.Ocf sw => Switch.SamsungOcfSwitch.unique_id sw d
  end.

Module OcfView.
Import Switch.SamsungOcfSwitch.

(** Whether the snapshot's data attribute carries the watched page as its
    [href]. *)
Definition href_matches (s : state) : bool :=
  match Py.getitem (Status.data (attributes (status (world s)) Attribute.data))
                   (VStr "href") with
  | Ok href => Py.eq href (VStr (_page (self s)))
  | Raise _ => false
  end.

(** The payload value at the watched key. *)
Definition watched_output (s : state) : outcome pyval :=
  match Py.getitem (Status.value (attributes (status (world s)) Attribute.data))
                   (VStr "payload") with
  | Ok payload => Py.getitem payload (VStr (_key (self s)))
  | Raise e => Raise e
  end.

(** The page visits recorded in a trace. *)
Definition page_visits (page : string) (tr : list effect) : nat :=
  length (List.filter
            (fun e => match e with
                      | CallExecute p None => String.eqb p page
                      | _ => false
                      end) tr).

(** The state after the first step of a read: the page visit has been
    issued if [init_bool] was not set. *)
Definition visited (s : state) : state :=
  if init_bool (self s) then s
  else {| self := self s;
          world := {| status := status (world s);
                      trace := trace (world s) ++
                               [CallExecute (_page (self s)) None] |} |}.

(** The adapter after a read that saw the watched page: the page has
    been visited if it had not, and [init_bool] is set. *)
Definition seen (s : state) : state :=
  {| self := mk (_page (self s)) (_key (self s)) (_on_value (self s))
                (_off_value (self s)) (_name (self s)) (_on_icon (self s))
                (_off_icon (self s)) (execute_state (self s)) true;
     world := world (visited s) |}.

(** [s] with the cached flag set to [b]. *)
Definition cached (b : bool) (s : state) : state :=
  {| self := mk (_page (self s)) (_key (self s)) (_on_value (self s))
                (_off_value (self s)) (_name (self s)) (_on_icon (self s))
                (_off_icon (self s)) b (init_bool (self s));
     world := world s |}.

(** The two membership tests of the classification step, the on-test
    first, run on candidates [x] and [y]. *)
Definition classify (x y : outcome pyval) (output : pyval) (s : state)
  : outcome bool * state :=
  match x with
  | Raise e => (Raise e, s)
  | Ok x =>
      match Py.contains x output with
      | Raise e => (Raise e, s)
      | Ok true => (Ok true, cached true s)
      | Ok false =>
          match y with
          | Raise e => (Raise e, s)
          | Ok y =>
              match Py.contains y output with
              | Raise e => (Raise e, s)
              | Ok true => (Ok false, cached false s)
              | Ok false => (Ok (execute_state (self s)), s)
              end
          end
      end
  end.

(** The outcome of a read and the state it leaves, case by case. *)
Definition read (s : state) : outcome bool * state :=
  match Py.getitem (Status.data (attributes (status (world s)) Attribute.data))
                   (VStr "href") with
  | Raise e => (Raise e, visited s)
  | Ok href =>
      if Py.eq href (VStr (_page (self s))) then
        match watched_output s with
        | Raise e => (Raise e, seen s)
        | Ok output =>
            match Py.len (_on_value (self s)) with
            | Raise e => (Raise e, seen s)
            | Ok n =>
                if n >? 1
                then classify (Ok (_on_value (self s))) (Ok (_off_value (self s)))
                              output (seen s)
                else classify (Py.getitem (_on_value (self s)) (VInt 0))
                              (Py.getitem (_off_value (self s)) (VInt 0))
                              output (seen s)
            end
        end
      else (Ok (execute_state (self s)), visited s)
  end.

End OcfView.

(** ** Concrete devices and adapters *)

Module Examples.

(** A device whose snapshot is still empty. *)
Definition no_status : World := {| status := ∅; trace := [] |}.

(** A device that reports volume [n]. *)
Definition volume_world (n : Z) : World :=
  {| status := {[ Attribute.volume := Status.mk (VInt n) (VStr "%") VNone ]};
     trace := [] |}.

(** A device whose data attribute was filled by a visit of page [href]
    and lists [options] under the options key. *)
Definition page_world (href : string) (options : list pyval) : World :=
  {| status :=
       {[ Attribute.data :=
            Status.mk
              (VDict [("payload",
                       VDict [("x.com.samsung.da.options", VList options)])])
              VNone
              (VDict [("href", VStr href)]) ]};
     trace := [] |}.

(** The generic switch of the registry. *)
Definition plain_switch : Switch.SmartThingsSwitch.t :=
  Switch.SmartThingsSwitch.init Attribute.switch "switch_on" "switch_off"
    (VStr "on") (VStr "off") "Switch" None None.

(** The mute switch of the registry and the volume switch of the setup. *)
Definition mute_switch : Switch.SmartThingsCustomSwitch.t :=
  Switch.SmartThingsCustomSwitch.init Capability.audio_mute Attribute.mute
    "setMute" "setMute" (VStr "muted") (VStr "unmuted")
    "Mute" (Some "mdi:volume-mute") None.

Definition audio_switch : Switch.SmartThingsCustomSwitch.t :=
  Switch.SmartThingsCustomSwitch.init "audioVolume" "volume"
    "setVolume" "setVolume" (VInt 100) (VInt 0)
    "Audio" (Some "mdi:volume-high") None.

(** A paged switch with on-values ["Light_On"] and off-values
    ["Light_Off"], and one whose value lists have two elements. *)
Definition light : Switch.SamsungOcfSwitch.t :=
  Switch.SamsungOcfSwitch.init "/mode/vs/0" "x.com.samsung.da.options"
    (VList [VStr "Light_On"]) (VList [VStr "Light_Off"])
    "Light" (Some "mdi:led-on") (Some "mdi:led-variant-off").

Definition two_valued : Switch.SamsungOcfSwitch.t :=
  Switch.SamsungOcfSwitch.init "/mode/vs/0" "x.com.samsung.da.options"
    (VList [VStr "Light_On"; VStr "Volume_100"])
    (VList [VStr "Light_Off"; VStr "Volume_Mute"])
    "Light" None None.

Definition light_at (href : string) (options : list pyval)
  : Switch.SamsungOcfSwitch.state :=
  {| Switch.SamsungOcfSwitch.self := light;
     Switch.SamsungOcfSwitch.world := page_world href options |}.

Definition two_valued_at (href : string) (options : list pyval)
  : Switch.SamsungOcfSwitch.state :=
  {| Switch.SamsungOcfSwitch.self := two_valued;
     Switch.SamsungOcfSwitch.world := page_world href options |}.

(** A device that the cloud reports as muted. *)
Definition muted_world : World :=
  {| status := {[ Attribute.mute := Status.mk (VStr "muted") VNone VNone ]};
     trace := [] |}.

(** A Samsung OCF air conditioner and the part of its snapshot that the
    setup inspects. *)
Definition air_conditioner : Device :=
  {| device_id := "d1"; label := "Bedroom AC"; type := "OCF" |}.

Definition samsung_world (model : string) : World :=
  {| status :=
       {[ Attribute.mnmn := Status.mk (VStr "Samsung Electronics") VNone VNone;
          "binaryId" := Status.mk (VStr model) VNone VNone ]};
     trace := [] |}.

(** A custom switch that surfaces two extra attributes. *)
Definition verbose_switch : Switch.SmartThingsCustomSwitch.t :=
  Switch.SmartThingsCustomSwitch.init "custom.spiMode" "spiMode"
    "setSpiMode" "setSpiMode" (VStr "on") (VStr "off")
    "SPI Mode" None (Some ["volume"; "mnmn"; "volume"]).

End Examples.

(** ** Basic facts *)

Lemma str_in_In (c : string) (l : list string) : str_in c l = true <-> In c l.
Proof.
  unfold str_in. rewrite existsb_exists. split.
  - intros (x & Hx & Heq). apply String.eqb_eq in Heq. now subst.
  - intros H. exists c. split; [exact H | apply String.eqb_refl].
Qed.

Lemma str_in_false (c : string) (l : list string) : str_in c l = false <-> ~ In c l.
Proof.
  rewrite <- str_in_In. destruct (str_in c l); split; intros; congruence.
Qed.

Lemma attributes_patch_same (a : string) (v : pyval) (st : gmap string Status.t) :
  attributes (patch_attribute a v st) a =
  Status.mk v (Status.unit (attributes st a)) (Status.data (attributes st a)).
Proof. unfold attributes at 1, patch_attribute. now rewrite lookup_insert_eq. Qed.

Lemma attributes_patch_other (a b : string) (v : pyval) (st : gmap string Status.t) :
  a <> b -> attributes (patch_attribute a v st) b = attributes st b.
Proof.
  intros Hne. unfold attributes at 1, patch_attribute.
  rewrite lookup_insert_ne by exact Hne. reflexivity.
Qed.

Lemma filter_sublist_keys {A : Type} (p : A -> bool) (l : list A) :
  sublist (List.filter p l) l.
Proof.
  induction l as [| x l IH]; simpl.
  - constructor.
  - destruct (p x); [now apply sublist_skip | now apply sublist_cons].
Qed.

Lemma registry_keys_eq :
  Switch.registry_keys =
  ["switch"; "audioMute"; "custom.spiMode"; "custom.autoCleaningMode"].
Proof. reflexivity. Qed.

Lemma registry_keys_NoDup : List.NoDup Switch.registry_keys.
Proof.
  rewrite registry_keys_eq.
  repeat (constructor; [simpl; intuition discriminate |]). constructor.
Qed.

(** ** The capability gates *)

(** C3: the switch platform's [get_capabilities S] is exactly the registry
    keys that occur in [S], each once and in registry order; it is empty
    exactly when no registry key occurs in [S].  The function is total and
    touches no state. *)
Theorem switch_get_capabilities_subset (S : list string) :
  (forall c, In c (Switch.get_capabilities S) <-> In c Switch.registry_keys /\ In c S)
  /\ sublist (Switch.get_capabilities S) Switch.registry_keys
  /\ List.NoDup (Switch.get_capabilities S)
  /\ (Switch.get_capabilities S = [] <->
      forall c, In c Switch.registry_keys -> ~ In c S).
Proof.
  unfold Switch.get_capabilities.
  split; [| split; [| split]].
  - intros c. rewrite filter_In, str_in_In. tauto.
  - apply filter_sublist_keys.
  - apply List.NoDup_filter, registry_keys_NoDup.
  - split.
    + intros Hnil c Hk HS.
      assert (Hin : In c (List.filter (fun k => str_in k S) Switch.registry_keys)).
      { apply filter_In. split; [exact Hk | now apply str_in_In]. }
      rewrite Hnil in Hin. exact Hin.
    + intros Hnone.
      destruct (List.filter (fun k => str_in k S) Switch.registry_keys) as [| c l] eqn:E;
        [reflexivity |].
      assert (Hin : In c (List.filter (fun k => str_in k S) Switch.registry_keys))
        by (rewrite E; now left).
      apply filter_In in Hin. destruct Hin as [Hk HS].
      apply str_in_In in HS. exfalso. exact (Hnone c Hk HS).
Qed.

(** C4: the media player's [get_capabilities S] is the fixed list of eleven
    capabilities exactly when every one of them occurs in [S], and is
    [None] otherwise; no other result is possible. *)
Theorem media_player_get_capabilities_all_or_none (S : list string) :
  length MediaPlayer.supported = 11%nat
  /\ (MediaPlayer.get_capabilities S = Some MediaPlayer.supported <->
      forall c, In c MediaPlayer.supported -> In c S)
  /\ (MediaPlayer.get_capabilities S = None <->
      ~ forall c, In c MediaPlayer.supported -> In c S).
Proof.
  assert (Hall : forallb (fun c => str_in c S) MediaPlayer.supported = true <->
                 forall c, In c MediaPlayer.supported -> In c S).
  { rewrite forallb_forall. split; intros H c Hc.
    - apply str_in_In. now apply H.
    - apply str_in_In. now apply H. }
  unfold MediaPlayer.get_capabilities.
  split; [reflexivity |].
  destruct (forallb (fun c => str_in c S) MediaPlayer.supported) eqn:E.
  - split; split; intros H.
    + now apply Hall.
    + reflexivity.
    + discriminate.
    + exfalso. apply H. now apply Hall.
  - split; split; intros H.
    + discriminate.
    + apply Hall in H. congruence.
    + intros Habs. apply Hall in Habs. congruence.
    + reflexivity.
Qed.

(** ** Running the handlers *)

Ltac run :=
  unfold outcome_of, state_after,
         Switch.SmartThingsCustomSwitch.async_turn_off,
         Switch.SmartThingsCustomSwitch.async_turn_on,
         Switch.SmartThingsSwitch.async_turn_off,
         Switch.SmartThingsSwitch.async_turn_on,
         device_switch_on, device_switch_off, status_set_switch,
         device_command, device_execute, async_write_ha_state,
         update_attribute_value, emit, when, bind, lift, gets, modify, ret;
  simpl.

(** What a custom-switch handler leaves behind when the cloud call
    returns [result]. *)
Lemma custom_turn_off_run (self : Switch.SmartThingsCustomSwitch.t) (w : World)
    (result : pyval) :
  Switch.SmartThingsCustomSwitch.async_turn_off self (Ok result) w =
  (Ok tt,
   {| status := if Py.truthy result
                then patch_attribute (Switch.SmartThingsCustomSwitch._attribute self)
                       (Switch.SmartThingsCustomSwitch._off_value self) (status w)
                else status w;
      trace := trace w ++
               [CallCommand "main" (Switch.SmartThingsCustomSwitch._capability self)
                  (Switch.SmartThingsCustomSwitch._off_command self)
                  [Switch.SmartThingsCustomSwitch._off_value self]] ++
               [WriteHaState] |}).
Proof. run. destruct (Py.truthy result); simpl; now rewrite <- List.app_assoc. Qed.

Lemma custom_turn_on_run (self : Switch.SmartThingsCustomSwitch.t) (w : World)
    (result : pyval) :
  Switch.SmartThingsCustomSwitch.async_turn_on self (Ok result) w =
  (Ok tt,
   {| status := if Py.truthy result
                then patch_attribute (Switch.SmartThingsCustomSwitch._attribute self)
                       (Switch.SmartThingsCustomSwitch._on_value self) (status w)
                else status w;
      trace := trace w ++
               [CallCommand "main" (Switch.SmartThingsCustomSwitch._capability self)
                  (Switch.SmartThingsCustomSwitch._on_command self)
                  [Switch.SmartThingsCustomSwitch._on_value self]] ++
               [WriteHaState] |}).
Proof. run. destruct (Py.truthy result); simpl; now rewrite <- List.app_assoc. Qed.

(** A call that raises is propagated: nothing is patched and no
    notification follows. *)
Lemma custom_turn_off_raise (self : Switch.SmartThingsCustomSwitch.t) (w : World)
    (e : exn) :
  Switch.SmartThingsCustomSwitch.async_turn_off self (Raise e) w =
  (Raise e,
   {| status := status w;
      trace := trace w ++
               [CallCommand "main" (Switch.SmartThingsCustomSwitch._capability self)
                  (Switch.SmartThingsCustomSwitch._off_command self)
                  [Switch.SmartThingsCustomSwitch._off_value self]] |}).
Proof. reflexivity. Qed.

(** ** The custom-capability switch *)

Section CustomSwitch.
Import Switch.SmartThingsCustomSwitch.

Variable self : t.
Variable w : World.
Variable result : pyval.

(** C1: when the cloud command returns a truthy result, the stored value
    of the mapped attribute is the off-value after [async_turn_off] and
    the on-value after [async_turn_on]; when it returns a falsy result,
    the snapshot is the one the handler started from. *)
Theorem custom_switch_patches_on_success :
  let off := async_turn_off self (Ok result) w in
  let on := async_turn_on self (Ok result) w in
  outcome_of off = Ok tt /\ outcome_of on = Ok tt
  /\ (Py.truthy result = true ->
      snapshot_value (state_after off) (_attribute self) = _off_value self
      /\ snapshot_value (state_after on) (_attribute self) = _on_value self)
  /\ (Py.truthy result = false ->
      status (state_after off) = status w
      /\ status (state_after on) = status w).
Proof.
  cbv zeta. rewrite custom_turn_off_run, custom_turn_on_run.
  unfold outcome_of, state_after, snapshot_value. simpl.
  split; [reflexivity | split; [reflexivity | split]].
  - intros ->. now rewrite !attributes_patch_same.
  - intros ->. split; reflexivity.
Qed.

(** C7: whatever result the cloud command returns, the handler ends by
    emitting the state-changed notification, exactly once and after the
    command; with a falsy result this happens although the snapshot is
    left as it was. *)
Theorem custom_switch_always_notifies :
  let off := async_turn_off self (Ok result) w in
  let on := async_turn_on self (Ok result) w in
  trace (state_after off) =
    (trace w ++ [CallCommand "main" (_capability self) (_off_command self)
                   [_off_value self]; WriteHaState])%list
  /\ trace (state_after on) =
    (trace w ++ [CallCommand "main" (_capability self) (_on_command self)
                   [_on_value self]; WriteHaState])%list
  /\ (Py.truthy result = false ->
      status (state_after off) = status w /\ status (state_after on) = status w).
Proof.
  cbv zeta. rewrite custom_turn_off_run, custom_turn_on_run.
  unfold state_after. simpl.
  split; [reflexivity | split; [reflexivity |]].
  intros ->. split; reflexivity.
Qed.

End CustomSwitch.

(** C10: at the mute switch of the registry the code departs from the
    claim.  The snapshot stores "muted", the configured on-value, and
    [is_on] is [False]; and for every device, right after a turn-on whose
    command reported success, the stored value of [mute] is the on-value
    and [is_on] is [False] still: the read compares the boolean that the
    status object's [mute] accessor returns with the string "muted". *)
Theorem custom_mute_switch_reads_off (w : World) :
  Switch.switches_for_capability Capability.audio_mute =
    Ok [Switch.Custom Examples.mute_switch]
  /\ snapshot_value Examples.muted_world Attribute.mute =
     Switch.SmartThingsCustomSwitch._on_value Examples.mute_switch
  /\ Switch.SmartThingsCustomSwitch.is_on Examples.mute_switch Examples.muted_world =
     VBool false
  /\ (let after :=
        state_after (Switch.SmartThingsCustomSwitch.async_turn_on Examples.mute_switch
                       (Ok (VBool true)) w) in
      snapshot_value after Attribute.mute =
        Switch.SmartThingsCustomSwitch._on_value Examples.mute_switch
      /\ Switch.SmartThingsCustomSwitch.is_on Examples.mute_switch after = VBool false).
Proof.
  split; [reflexivity |]. split; [reflexivity |]. split; [reflexivity |].
  cbv zeta. rewrite custom_turn_on_run. unfold state_after, snapshot_value. simpl.
  rewrite attributes_patch_same. split; reflexivity.
Qed.


(** ** The generic switch *)

Lemma generic_turn_on_run (self : Switch.SmartThingsSwitch.t) (w : World)
    (result : pyval) :
  Switch.SmartThingsSwitch.async_turn_on self (Ok result) w =
  (Ok tt,
   {| status := if Py.truthy result
                then patch_attribute Attribute.switch (VStr "on") (status w)
                else status w;
      trace := trace w ++
               [CallCommand "main" Capability.switch "on" []] ++ [WriteHaState] |}).
Proof. run. destruct (Py.truthy result); simpl; now rewrite <- List.app_assoc. Qed.

Lemma generic_turn_off_run (self : Switch.SmartThingsSwitch.t) (w : World)
    (result : pyval) :
  Switch.SmartThingsSwitch.async_turn_off self (Ok result) w =
  (Ok tt,
   {| status := if Py.truthy result
                then patch_attribute Attribute.switch (VStr "off") (status w)
                else status w;
      trace := trace w ++
               [CallCommand "main" Capability.switch "off" []] ++ [WriteHaState] |}).
Proof. run. destruct (Py.truthy result); simpl; now rewrite <- List.app_assoc. Qed.

(** The setup loop builds a generic switch only for the [switch]
    capability, whose mapping reads the [switch] attribute. *)
Lemma generic_switch_reads_switch (capability : string)
    (entities : list Switch.entity) (sw : Switch.SmartThingsSwitch.t) :
  Switch.switches_for_capability capability = Ok entities ->
  In (Switch.Generic sw) entities ->
  Switch.SmartThingsSwitch._attribute sw = Attribute.switch.
Proof.
  unfold Switch.switches_for_capability. simpl.
  destruct (String.eqb_spec capability Capability.switch) as [-> | _].
  { simpl. intros [= <-] [[= <-] | []]. reflexivity. }
  destruct (String.eqb_spec capability Capability.audio_mute) as [-> | _].
  { simpl. intros [= <-] [[=] | []]. }
  destruct (String.eqb_spec capability "custom.spiMode") as [-> | _].
  { simpl. intros [= <-] [[=] | []]. }
  destruct (String.eqb_spec capability "custom.autoCleaningMode") as [-> | _].
  { simpl. intros [= <-] [[=] | []]. }
  discriminate.
Qed.

(** C5: for a generic switch as the setup loop builds it, once
    [async_turn_on] has completed with the cloud command reporting success,
    [is_on] reads [True] from the snapshot that the handler left, with no
    push update in between. *)
Theorem generic_switch_on_then_is_on (capability : string)
    (entities : list Switch.entity) (sw : Switch.SmartThingsSwitch.t)
    (w : World) (result : pyval) :
  Switch.switches_for_capability capability = Ok entities ->
  In (Switch.Generic sw) entities ->
  Py.truthy result = true ->
  let after := Switch.SmartThingsSwitch.async_turn_on sw (Ok result) w in
  outcome_of after = Ok tt
  /\ Switch.SmartThingsSwitch.is_on sw (state_after after) = VBool true.
Proof.
  intros Hbuilt Hin Hok. cbv zeta.
  rewrite generic_turn_on_run, Hok.
  unfold outcome_of, state_after, Switch.SmartThingsSwitch.is_on. simpl.
  split; [reflexivity |].
  rewrite (generic_switch_reads_switch _ _ _ Hbuilt Hin).
  unfold status_getattr. simpl. now rewrite attributes_patch_same.
Qed.

(** ** The paged switch *)

Ltac run_ocf :=
  unfold outcome_of, state_after,
         Switch.SamsungOcfSwitch.is_on,
         Switch.SamsungOcfSwitch.async_turn_off,
         Switch.SamsungOcfSwitch.async_turn_on,
         Switch.SamsungOcfSwitch.startup,
         Switch.SamsungOcfSwitch.set_init_bool,
         Switch.SamsungOcfSwitch.set_execute_state,
         Switch.SamsungOcfSwitch.on_device,
         device_execute, async_write_ha_state, update_attribute_value,
         emit, when, bind, lift, gets, modify, ret;
  simpl.

Section PagedSwitch.
Import Switch.SamsungOcfSwitch OcfView.

(** A read whose [href] lookup raises stops after the page visit. *)
Lemma is_on_href_raises (s : state) (e : exn) :
  Py.getitem (Status.data (attributes (status (world s)) Attribute.data))
             (VStr "href") = Raise e ->
  is_on s = (Raise e, visited s).
Proof.
  intros H. run_ocf. unfold visited.
  destruct s as [me w]. simpl in *.
  destruct (init_bool me); simpl; rewrite H; reflexivity.
Qed.

(** A read that finds another page keeps the cached flag. *)
Lemma is_on_other_page (s : state) :
  (exists href,
     Py.getitem (Status.data (attributes (status (world s)) Attribute.data))
                (VStr "href") = Ok href
     /\ Py.eq href (VStr (_page (self s))) = false) ->
  is_on s = (Ok (execute_state (self s)), visited s).
Proof.
  intros (href & H & Hne). run_ocf. unfold visited.
  destruct s as [me w]. simpl in *.
  destruct (init_bool me); simpl; rewrite H; simpl; rewrite Hne; reflexivity.
Qed.

(** A read that finds the watched page sets [init_bool] and classifies the
    payload at the watched key. *)
Lemma is_on_watched_page (s : state) (output : pyval) :
  href_matches s = true ->
  watched_output s = Ok output ->
  is_on s =
  match Py.len (_on_value (self s)) with
  | Raise e => (Raise e, seen s)
  | Ok n =>
      if n >? 1
      then classify (Ok (_on_value (self s))) (Ok (_off_value (self s)))
                    output (seen s)
      else classify (Py.getitem (_on_value (self s)) (VInt 0))
                    (Py.getitem (_off_value (self s)) (VInt 0))
                    output (seen s)
  end.
Proof.
  unfold href_matches, watched_output. intros Hhref Hout.
  destruct s as [me w]. simpl in *.
  destruct (Py.getitem (Status.data (attributes (status w) Attribute.data))
                       (VStr "href")) as [href |] eqn:H; [| discriminate].
  destruct (Py.getitem (Status.value (attributes (status w) Attribute.data))
                       (VStr "payload")) as [payload |] eqn:Hp; [| discriminate].
  run_ocf. unfold seen, visited, classify, cached. simpl.
  destruct (init_bool me); simpl; rewrite H; simpl; rewrite Hhref; simpl;
    rewrite Hp; simpl; rewrite Hout; simpl.
  all: destruct (Py.len (_on_value me)) as [n |]; simpl; [| reflexivity].
  all: destruct (n >? 1); simpl.
  all: repeat
         match goal with
         | |- context [match ?o with Ok _ => _ | Raise _ => _ end] =>
             destruct o as [[] |]; simpl
         | |- context [match ?o with Ok _ => _ | Raise _ => _ end] =>
             destruct o; simpl
         end; try reflexivity.
Qed.

(** What a paged-switch write leaves behind when the cloud call returns
    [result]. *)
Lemma ocf_turn_off_run (s : state) (result : pyval) :
  async_turn_off (Ok result) s =
  (Ok tt,
   {| self := if Py.truthy result then self (cached false s) else self s;
      world :=
        {| status :=
             if Py.truthy result
             then patch_attribute "data"
                    (VDict [("payload",
                             VDict [(_key (self s), _off_value (self s))])])
                    (status (world s))
             else status (world s);
           trace := trace (world s) ++
                    [CallExecute (_page (self s))
                       (Some (VDict [(_key (self s), _off_value (self s))]))] ++
                    [WriteHaState] |} |}).
Proof.
  run_ocf. destruct s as [me w]. unfold cached. simpl.
  destruct (Py.truthy result); simpl; now rewrite <- List.app_assoc.
Qed.

Lemma ocf_turn_on_run (s : state) (result : pyval) :
  async_turn_on (Ok result) s =
  (Ok tt,
   {| self := if Py.truthy result then self (cached true s) else self s;
      world :=
        {| status :=
             if Py.truthy result
             then patch_attribute "data"
                    (VDict [("payload",
                             VDict [(_key (self s), _on_value (self s))])])
                    (status (world s))
             else status (world s);
           trace := trace (world s) ++
                    [CallExecute (_page (self s))
                       (Some (VDict [(_key (self s), _on_value (self s))]))] ++
                    [WriteHaState] |} |}).
Proof.
  run_ocf. destruct s as [me w]. unfold cached. simpl.
  destruct (Py.truthy result); simpl; now rewrite <- List.app_assoc.
Qed.

(** C2, as amended: with on-values ["Light_On"] and off-values
    ["Light_Off"], when the data attribute's [href] is the watched page and
    the payload has a value at the watched key, [is_on] returns [True] if
    that value contains "Light_On"; returns [False] if it contains
    "Light_Off" and not "Light_On"; and returns the cached flag, leaving it
    as it was, if it contains neither. *)
Theorem ocf_light_classification (s : state) (output : pyval) :
  _on_value (self s) = VList [VStr "Light_On"] ->
  _off_value (self s) = VList [VStr "Light_Off"] ->
  href_matches s = true ->
  watched_output s = Ok output ->
  (Py.contains (VStr "Light_On") output = Ok true ->
   outcome_of (is_on s) = Ok true
   /\ execute_state (self (state_after (is_on s))) = true)
  /\ (Py.contains (VStr "Light_On") output = Ok false ->
      Py.contains (VStr "Light_Off") output = Ok true ->
      outcome_of (is_on s) = Ok false
      /\ execute_state (self (state_after (is_on s))) = false)
  /\ (Py.contains (VStr "Light_On") output = Ok false ->
      Py.contains (VStr "Light_Off") output = Ok false ->
      outcome_of (is_on s) = Ok (execute_state (self s))
      /\ execute_state (self (state_after (is_on s))) = execute_state (self s)).
Proof.
  intros Hon Hoff Hhref Hout.
  rewrite (is_on_watched_page s output Hhref Hout), Hon, Hoff.
  unfold outcome_of, state_after, classify. simpl.
  split; [| split].
  - intros ->. split; reflexivity.
  - intros -> ->. split; reflexivity.
  - intros -> ->. split; reflexivity.
Qed.

(** C6, as amended: a read issues the page visit, once and before
    anything else, exactly when [init_bool] is not yet set, so the first
    read on a fresh adapter issues exactly one; a read sets [init_bool]
    when it finds the watched page in the snapshot, so reads go on visiting
    the page until one of them has found it, and none does afterwards. *)
Theorem ocf_page_visit_policy (s : state) :
  let after := state_after (is_on s) in
  trace (world after) =
    (trace (world s) ++
     if init_bool (self s) then [] else [CallExecute (_page (self s)) None])%list
  /\ init_bool (self after) = init_bool (self s) || href_matches s
  /\ _page (self after) = _page (self s)
  /\ (forall page key on_value off_value name on_icon off_icon,
       self s = init page key on_value off_value name on_icon off_icon ->
       trace (world after) = (trace (world s) ++ [CallExecute page None])%list).
Proof.
  cbv zeta.
  assert (Hmain :
    trace (world (state_after (is_on s))) = trace (world (visited s))
    /\ init_bool (self (state_after (is_on s))) = init_bool (self s) || href_matches s
    /\ _page (self (state_after (is_on s))) = _page (self s)).
  { unfold href_matches, visited. run_ocf.
    destruct s as [me w]. simpl.
    destruct (init_bool me) eqn:Hinit; simpl.
    all: repeat
           match goal with
           | |- context [match ?o with Ok _ => _ | Raise _ => _ end] =>
               destruct o; simpl
           | |- context [if ?b then _ else _] => destruct b; simpl
           end; auto. }
  destruct Hmain as (Ht & Hi & Hp).
  assert (Hv : trace (world (visited s)) =
               (trace (world s) ++
                if init_bool (self s) then []
                else [CallExecute (_page (self s)) None])%list).
  { unfold visited. destruct (init_bool (self s)); simpl;
      now rewrite ?List.app_nil_r. }
  split; [congruence |]. split; [exact Hi |]. split; [exact Hp |].
  intros page key on_value off_value name on_icon off_icon Hfresh.
  rewrite Ht, Hv, Hfresh. reflexivity.
Qed.

(** C8: when the watched page is found and the payload has a value at the
    watched key, the length of the on-value alone chooses the comparison:
    longer than one, the on-value as a whole and then the off-value as a
    whole are tested for membership in that value; of length one, the
    elements at index 0 of the on-value and then of the off-value are.
    In both forms the on-test comes first: when it succeeds the state is
    on, whatever the off-test would give. *)
Theorem ocf_comparison_by_length (s : state) (output : pyval) (n : Z) :
  href_matches s = true ->
  watched_output s = Ok output ->
  Py.len (_on_value (self s)) = Ok n ->
  (1 < n ->
   is_on s = classify (Ok (_on_value (self s))) (Ok (_off_value (self s)))
                      output (seen s))
  /\ (n = 1 ->
      is_on s = classify (Py.getitem (_on_value (self s)) (VInt 0))
                         (Py.getitem (_off_value (self s)) (VInt 0))
                         output (seen s))
  /\ (forall x y st,
       Py.contains x output = Ok true ->
       classify (Ok x) y output st = (Ok true, cached true st)).
Proof.
  intros Hhref Hout Hlen.
  rewrite (is_on_watched_page s output Hhref Hout), Hlen.
  split; [| split].
  - intros Hn. apply Z.gtb_lt in Hn. now rewrite Hn.
  - intros ->. reflexivity.
  - intros x y st Hx. unfold classify. now rewrite Hx.
Qed.

(** C9: a paged-switch write issues the execute call on the page with the
    payload [{key: value}] and then the notification.  When the call
    reports success, the stored value of the data attribute becomes
    [{"payload": {key: value}}] and the cached flag is set to [False]
    (turn-off) or [True] (turn-on) whatever the payload would classify as;
    when it reports no success, snapshot and adapter are as before. *)
Theorem ocf_write_path (s : state) (result : pyval) :
  let me := self s in
  let off := async_turn_off (Ok result) s in
  let on := async_turn_on (Ok result) s in
  outcome_of off = Ok tt /\ outcome_of on = Ok tt
  /\ trace (world (state_after off)) =
       (trace (world s) ++
        [CallExecute (_page me) (Some (VDict [(_key me, _off_value me)]));
         WriteHaState])%list
  /\ trace (world (state_after on)) =
       (trace (world s) ++
        [CallExecute (_page me) (Some (VDict [(_key me, _on_value me)]));
         WriteHaState])%list
  /\ (Py.truthy result = true ->
      status (world (state_after off)) =
        patch_attribute "data"
          (VDict [("payload", VDict [(_key me, _off_value me)])]) (status (world s))
      /\ self (state_after off) = self (cached false s)
      /\ status (world (state_after on)) =
        patch_attribute "data"
          (VDict [("payload", VDict [(_key me, _on_value me)])]) (status (world s))
      /\ self (state_after on) = self (cached true s))
  /\ (Py.truthy result = false ->
      status (world (state_after off)) = status (world s)
      /\ self (state_after off) = self s
      /\ status (world (state_after on)) = status (world s)
      /\ self (state_after on) = self s).
Proof.
  cbv zeta. rewrite ocf_turn_off_run, ocf_turn_on_run.
  unfold outcome_of, state_after. simpl.
  repeat (split; [reflexivity |]).
  split; intros ->; repeat split; reflexivity.
Qed.

End PagedSwitch.

(** ** The statements at concrete devices *)

Section AtExamples.
Import Examples.

(** The custom mute switch: a successful turn-off stores "unmuted", a
    failed one leaves the snapshot empty. *)
Lemma custom_switch_patches_on_success_witness :
  snapshot_value
    (state_after (Switch.SmartThingsCustomSwitch.async_turn_off mute_switch
                    (Ok (VBool true)) no_status))
    Attribute.mute = VStr "unmuted"
  /\ status
       (state_after (Switch.SmartThingsCustomSwitch.async_turn_off mute_switch
                       (Ok (VBool false)) no_status)) = status no_status.
Proof.
  split.
  - pose proof (custom_switch_patches_on_success mute_switch no_status (VBool true)) as H.
    cbv zeta in H. destruct H as (_ & _ & Hok & _).
    destruct (Hok eq_refl) as [Hoff _]. exact Hoff.
  - pose proof (custom_switch_patches_on_success mute_switch no_status (VBool false)) as H.
    cbv zeta in H. destruct H as (_ & _ & _ & Hfail).
    destruct (Hfail eq_refl) as [Hoff _]. exact Hoff.
Defined.

(** The custom mute switch notifies after a command that reported no
    success. *)
Lemma custom_switch_always_notifies_witness :
  trace
    (state_after (Switch.SmartThingsCustomSwitch.async_turn_on mute_switch
                    (Ok (VBool false)) no_status)) =
    [CallCommand "main" "audioMute" "setMute" [VStr "muted"]; WriteHaState]
  /\ status
       (state_after (Switch.SmartThingsCustomSwitch.async_turn_on mute_switch
                       (Ok (VBool false)) no_status)) = status no_status.
Proof.
  pose proof (custom_switch_always_notifies mute_switch no_status (VBool false)) as H.
  cbv zeta in H. destruct H as (_ & Hon & Hfail).
  split; [exact Hon | exact (proj2 (Hfail eq_refl))].
Defined.

(** The registry's generic switch reads on after a successful turn-on. *)
Lemma generic_switch_on_then_is_on_witness :
  Switch.switches_for_capability Capability.switch = Ok [Switch.Generic plain_switch]
  /\ Switch.SmartThingsSwitch.is_on plain_switch
       (state_after (Switch.SmartThingsSwitch.async_turn_on plain_switch
                       (Ok (VBool true)) no_status)) = VBool true.
Proof.
  split; [reflexivity |].
  apply (generic_switch_on_then_is_on Capability.switch
           [Switch.Generic plain_switch] plain_switch no_status (VBool true)).
  - reflexivity.
  - left. reflexivity.
  - reflexivity.
Defined.

(** The light switch on the watched page, for three option lists. *)
Lemma ocf_light_classification_witness :
  outcome_of (Switch.SamsungOcfSwitch.is_on
                (light_at "/mode/vs/0" [VStr "Sleep_0"; VStr "Light_On"])) = Ok true
  /\ outcome_of (Switch.SamsungOcfSwitch.is_on
                   (light_at "/mode/vs/0" [VStr "Light_Off"; VStr "Sleep_0"])) = Ok false
  /\ outcome_of (Switch.SamsungOcfSwitch.is_on
                   (light_at "/mode/vs/0" [VStr "Sleep_0"])) = Ok false.
Proof.
  split; [| split].
  - destruct (ocf_light_classification
                (light_at "/mode/vs/0" [VStr "Sleep_0"; VStr "Light_On"])
                (VList [VStr "Sleep_0"; VStr "Light_On"])
                eq_refl eq_refl eq_refl eq_refl) as (Hon & _ & _).
    exact (proj1 (Hon eq_refl)).
  - destruct (ocf_light_classification
                (light_at "/mode/vs/0" [VStr "Light_Off"; VStr "Sleep_0"])
                (VList [VStr "Light_Off"; VStr "Sleep_0"])
                eq_refl eq_refl eq_refl eq_refl) as (_ & Hoff & _).
    exact (proj1 (Hoff eq_refl eq_refl)).
  - destruct (ocf_light_classification
                (light_at "/mode/vs/0" [VStr "Sleep_0"])
                (VList [VStr "Sleep_0"])
                eq_refl eq_refl eq_refl eq_refl) as (_ & _ & Hkeep).
    exact (proj1 (Hkeep eq_refl eq_refl)).
Defined.

(** C2 as stated fails on a payload that lists both values: it contains
    "Light_Off", and the read returns [True]. *)
Lemma ocf_light_both_listed :
  Switch.SamsungOcfSwitch._on_value light = VList [VStr "Light_On"]
  /\ Switch.SamsungOcfSwitch._off_value light = VList [VStr "Light_Off"]
  /\ OcfView.href_matches
       (light_at "/mode/vs/0" [VStr "Light_On"; VStr "Light_Off"]) = true
  /\ OcfView.watched_output
       (light_at "/mode/vs/0" [VStr "Light_On"; VStr "Light_Off"]) =
     Ok (VList [VStr "Light_On"; VStr "Light_Off"])
  /\ Py.contains (VStr "Light_Off") (VList [VStr "Light_On"; VStr "Light_Off"]) =
     Ok true
  /\ outcome_of (Switch.SamsungOcfSwitch.is_on
                   (light_at "/mode/vs/0" [VStr "Light_On"; VStr "Light_Off"])) =
     Ok true.
Proof. repeat split; reflexivity. Qed.

(** A fresh light switch visits its page on the first read. *)
Lemma ocf_page_visit_policy_witness :
  trace (Switch.SamsungOcfSwitch.world
           (state_after (Switch.SamsungOcfSwitch.is_on (light_at "/mode/vs/0" [])))) =
  [CallExecute "/mode/vs/0" None].
Proof.
  pose proof (ocf_page_visit_policy (light_at "/mode/vs/0" [])) as H.
  cbv zeta in H. destruct H as (_ & _ & _ & Hfresh).
  exact (Hfresh _ _ _ _ _ _ _ eq_refl).
Defined.

(** C6 as stated fails when the snapshot still shows another page: the
    second read of a fresh adapter visits the page again. *)
Lemma ocf_second_read_visits_again :
  Switch.SamsungOcfSwitch.self (light_at "/other" []) =
    Switch.SamsungOcfSwitch.init "/mode/vs/0" "x.com.samsung.da.options"
      (VList [VStr "Light_On"]) (VList [VStr "Light_Off"])
      "Light" (Some "mdi:led-on") (Some "mdi:led-variant-off")
  /\ outcome_of (Switch.SamsungOcfSwitch.is_on (light_at "/other" [])) = Ok false
  /\ trace (Switch.SamsungOcfSwitch.world
              (state_after (Switch.SamsungOcfSwitch.is_on (light_at "/other" [])))) =
     [CallExecute "/mode/vs/0" None]
  /\ trace (Switch.SamsungOcfSwitch.world
              (state_after
                 (Switch.SamsungOcfSwitch.is_on
                    (state_after (Switch.SamsungOcfSwitch.is_on (light_at "/other" [])))))) =
     [CallExecute "/mode/vs/0" None; CallExecute "/mode/vs/0" None].
Proof. repeat split; reflexivity. Qed.

(** Both comparison forms, on the watched page. *)
Lemma ocf_comparison_by_length_witness :
  Switch.SamsungOcfSwitch.is_on (light_at "/mode/vs/0" [VStr "Light_On"]) =
    OcfView.classify (Ok (VStr "Light_On")) (Ok (VStr "Light_Off"))
      (VList [VStr "Light_On"]) (OcfView.seen (light_at "/mode/vs/0" [VStr "Light_On"]))
  /\ Switch.SamsungOcfSwitch.is_on (two_valued_at "/mode/vs/0" [VStr "Light_On"]) =
    OcfView.classify (Ok (VList [VStr "Light_On"; VStr "Volume_100"]))
      (Ok (VList [VStr "Light_Off"; VStr "Volume_Mute"]))
      (VList [VStr "Light_On"])
      (OcfView.seen (two_valued_at "/mode/vs/0" [VStr "Light_On"])).
Proof.
  split.
  - destruct (ocf_comparison_by_length
                (light_at "/mode/vs/0" [VStr "Light_On"])
                (VList [VStr "Light_On"]) 1 eq_refl eq_refl eq_refl)
      as (_ & Hone & _).
    exact (Hone eq_refl).
  - destruct (ocf_comparison_by_length
                (two_valued_at "/mode/vs/0" [VStr "Light_On"])
                (VList [VStr "Light_On"]) 2 eq_refl eq_refl eq_refl)
      as (Hmany & _).
    exact (Hmany eq_refl).
Defined.

(** A successful turn-on of the light switch, and a failed one. *)
Lemma ocf_write_path_witness :
  Switch.SamsungOcfSwitch.execute_state
    (Switch.SamsungOcfSwitch.self
       (state_after (Switch.SamsungOcfSwitch.async_turn_on (Ok (VBool true))
                       (light_at "/mode/vs/0" [VStr "Light_Off"])))) = true
  /\ status (Switch.SamsungOcfSwitch.world
               (state_after (Switch.SamsungOcfSwitch.async_turn_on (Ok (VBool false))
                               (light_at "/mode/vs/0" [VStr "Light_Off"])))) =
     status (page_world "/mode/vs/0" [VStr "Light_Off"]).
Proof.
  split.
  - pose proof (ocf_write_path (light_at "/mode/vs/0" [VStr "Light_Off"]) (VBool true)) as H.
    cbv zeta in H. destruct H as (_ & _ & _ & _ & Hok & _).
    destruct (Hok eq_refl) as (_ & _ & _ & Hself). now rewrite Hself.
  - pose proof (ocf_write_path (light_at "/mode/vs/0" [VStr "Light_Off"]) (VBool false)) as H.
    cbv zeta in H. destruct H as (_ & _ & _ & _ & _ & Hfail).
    destruct (Hfail eq_refl) as (_ & _ & Hst & _). exact Hst.
Defined.

End AtExamples.


(** ** Further properties of the capability gates and of the setup *)

(** X1: the switch platform's [get_capabilities] looks only at which
    identifiers occur in its argument, not at their order or repetition,
    and applied to its own result it returns that result. *)
Theorem switch_get_capabilities_by_membership (S : list string) :
  (forall S', (forall c, In c S <-> In c S') ->
              Switch.get_capabilities S = Switch.get_capabilities S')
  /\ Switch.get_capabilities (Switch.get_capabilities S) = Switch.get_capabilities S.
Proof.
  split.
  - intros S' Hsame. unfold Switch.get_capabilities.
    apply filter_ext. intros c.
    destruct (str_in c S) eqn:E, (str_in c S') eqn:E'; try reflexivity.
    + apply str_in_In, Hsame, str_in_In in E. congruence.
    + apply str_in_In, Hsame, str_in_In in E'. congruence.
  - unfold Switch.get_capabilities at 1 3.
    apply filter_ext_in. intros c Hkey.
    destruct (str_in c S) eqn:E.
    + apply str_in_In. unfold Switch.get_capabilities.
      apply filter_In. split; [exact Hkey | exact E].
    + apply str_in_false. intros Hin.
      unfold Switch.get_capabilities in Hin. apply filter_In in Hin.
      destruct Hin as [_ Hin]. congruence.
Qed.

Lemma switch_get_capabilities_by_membership_witness :
  Switch.get_capabilities ["audioMute"; "switch"; "ocf"] =
  Switch.get_capabilities ["switch"; "ocf"; "audioMute"; "switch"].
Proof.
  apply (proj1 (switch_get_capabilities_by_membership ["audioMute"; "switch"; "ocf"])).
  intros c. simpl. tauto.
Defined.

(** The entity that the loop body builds for each capability. *)
Lemma switches_for_capability_cases (c : string) :
  (~ In c Switch.registry_keys /\ Switch.switches_for_capability c = Raise KeyError)
  \/ (c = Capability.switch
      /\ exists sw, Switch.switches_for_capability c = Ok [Switch.Generic sw]
                    /\ Switch.SmartThingsSwitch._attribute sw = Attribute.switch)
  \/ (exists sw, Switch.switches_for_capability c = Ok [Switch.Custom sw]
                 /\ Switch.SmartThingsCustomSwitch._capability sw = c
                 /\ In (c, Switch.SmartThingsCustomSwitch._attribute sw)
                      [(Capability.audio_mute, Attribute.mute);
                       ("custom.spiMode", "spiMode");
                       ("custom.autoCleaningMode", "autoCleaningMode")]).
Proof.
  unfold Switch.switches_for_capability. simpl.
  destruct (String.eqb_spec c Capability.switch) as [-> | N1].
  { right. left. split; [reflexivity |]. eexists. split; reflexivity. }
  destruct (String.eqb_spec c Capability.audio_mute) as [-> | N2].
  { right. right. eexists. simpl. split; [reflexivity |]. split; [reflexivity |]. now left. }
  destruct (String.eqb_spec c "custom.spiMode") as [-> | N3].
  { right. right. eexists. simpl. split; [reflexivity |]. split; [reflexivity |].
    right. now left. }
  destruct (String.eqb_spec c "custom.autoCleaningMode") as [-> | N4].
  { right. right. eexists. simpl. split; [reflexivity |]. split; [reflexivity |].
    right. right. now left. }
  left. split; [| reflexivity].
  intros [H | [H | [H | [H | []]]]]; congruence.
Qed.

(** X2: the loop body of the setup builds exactly one entity for each
    registry key, a generic switch for [switch] and a custom switch for
    the other three, and raises [KeyError] for every other capability; so
    whatever [get_capabilities] offers can be set up. *)
Theorem switches_for_capability_on_registry (c : string) :
  (In c Switch.registry_keys ->
   exists e, Switch.switches_for_capability c = Ok [e]
             /\ ((exists sw, e = Switch.Generic sw) <-> c = Capability.switch)
             /\ (forall sw, e <> Switch.Ocf sw))
  /\ (~ In c Switch.registry_keys ->
      Switch.switches_for_capability c = Raise KeyError)
  /\ (forall S, In c (Switch.get_capabilities S) ->
                exists e, Switch.switches_for_capability c = Ok [e]).
Proof.
  assert (Hreg : In c Switch.registry_keys ->
            exists e, Switch.switches_for_capability c = Ok [e]
                      /\ ((exists sw, e = Switch.Generic sw) <-> c = Capability.switch)
                      /\ (forall sw, e <> Switch.Ocf sw)).
  { intros Hin.
    destruct (switches_for_capability_cases c)
      as [[Hout _] | [[-> (sw & Hsw & _)] | (sw & Hsw & _ & Hattr)]].
    - contradiction.
    - exists (Switch.Generic sw). split; [exact Hsw |]. split; [| discriminate].
      split; [reflexivity | eauto].
    - exists (Switch.Custom sw). split; [exact Hsw |]. split; [| discriminate].
      split.
      + intros (sw' & Heq). discriminate.
      + intros ->. simpl in Hattr.
        destruct Hattr as [H | [H | [H | []]]]; discriminate. }
  split; [exact Hreg |]. split.
  - intros Hout.
    destruct (switches_for_capability_cases c)
      as [[_ Hraise] | [[-> _] | (sw & _ & _ & Hattr)]].
    + exact Hraise.
    + exfalso. apply Hout. rewrite registry_keys_eq. now left.
    + exfalso. apply Hout. rewrite registry_keys_eq. simpl in *.
      destruct Hattr as [H | [H | [H | []]]]; injection H as <- _; tauto.
  - intros S Hin. unfold Switch.get_capabilities in Hin. apply filter_In in Hin.
    destruct (Hreg (proj1 Hin)) as (e & He & _). eauto.
Qed.

Lemma switches_for_capability_on_registry_witness :
  (exists e, Switch.switches_for_capability "custom.spiMode" = Ok [e])
  /\ Switch.switches_for_capability "thermostat" = Raise KeyError.
Proof.
  split.
  - apply (proj2 (proj2 (switches_for_capability_on_registry "custom.spiMode"))
             ["custom.spiMode"; "thermostat"]).
    simpl. now left.
  - apply (proj1 (proj2 (switches_for_capability_on_registry "thermostat"))).
    rewrite registry_keys_eq. simpl. intros [H | [H | [H | [H | []]]]]; discriminate.
Defined.

Lemma in_switch_get_capabilities (c : string) (S : list string) :
  In c (Switch.get_capabilities S) <-> In c Switch.registry_keys /\ In c S.
Proof. unfold Switch.get_capabilities. rewrite filter_In, str_in_In. tauto. Qed.

Lemma media_player_gate_passes (S : list string) :
  MediaPlayer.get_capabilities S = Some MediaPlayer.supported <->
  forall c, In c MediaPlayer.supported -> In c S.
Proof.
  unfold MediaPlayer.get_capabilities.
  destruct (forallb (fun c => str_in c S) MediaPlayer.supported) eqn:E.
  - split; [| reflexivity]. intros _ c Hc.
    rewrite forallb_forall in E. apply str_in_In. now apply E.
  - split; [discriminate |]. intros Hall. exfalso.
    assert (Htrue : forallb (fun c => str_in c S) MediaPlayer.supported = true).
    { apply forallb_forall. intros c Hc. apply str_in_In. now apply Hall. }
    congruence.
Qed.

(** X3: the media player's gate is monotone in the capability list, and a
    list that passes it makes the switch platform offer [switch] and
    [audioMute] as well. *)
Theorem media_player_gate_monotone (S S' : list string) :
  (forall c, In c S -> In c S') ->
  MediaPlayer.get_capabilities S = Some MediaPlayer.supported ->
  MediaPlayer.get_capabilities S' = Some MediaPlayer.supported
  /\ In Capability.switch (Switch.get_capabilities S)
  /\ In Capability.audio_mute (Switch.get_capabilities S).
Proof.
  intros Hsub Hpass.
  assert (Hall := proj1 (media_player_gate_passes S) Hpass).
  split; [| split].
  - apply media_player_gate_passes. intros c Hc. apply Hsub, Hall, Hc.
  - apply in_switch_get_capabilities. split.
    + rewrite registry_keys_eq. simpl. tauto.
    + apply Hall. simpl. tauto.
  - apply in_switch_get_capabilities. split.
    + rewrite registry_keys_eq. simpl. tauto.
    + apply Hall. simpl. tauto.
Qed.

Lemma media_player_gate_monotone_witness :
  MediaPlayer.get_capabilities ("ocf" :: MediaPlayer.supported) =
    Some MediaPlayer.supported
  /\ In Capability.switch (Switch.get_capabilities MediaPlayer.supported).
Proof.
  destruct (media_player_gate_monotone MediaPlayer.supported
              ("ocf" :: MediaPlayer.supported)) as (Hup & Hsw & _).
  - intros c Hc. now right.
  - reflexivity.
  - split; [exact Hup | exact Hsw].
Defined.

(** ** The entities of one device *)

Lemma append_inj_l (s a b : string) : s ++ a = s ++ b -> a = b.
Proof.
  induction s as [| c s IH]; simpl; [tauto |].
  intros [= H]. now apply IH.
Qed.

Lemma py_eq_str (v : pyval) (s : string) : Py.eq v (VStr s) = true <-> v = VStr s.
Proof.
  destruct v; simpl; split; try discriminate.
  - intros H. apply String.eqb_eq in H. now subst.
  - intros [= ->]. apply String.eqb_refl.
Qed.

Lemma switches_for_capability_unique_id (d : Device) (c : string)
    (built : list Switch.entity) :
  Switch.switches_for_capability c = Ok built ->
  exists a, In (c, a) registry_attributes
            /\ map (entity_unique_id d) built = [device_id d ++ "." ++ a].
Proof.
  intros H.
  destruct (switches_for_capability_cases c)
    as [[_ Hraise] | [[-> (sw & Hsw & Hattr)] | (sw & Hsw & _ & Hattr)]].
  - congruence.
  - rewrite Hsw in H. injection H as <-. exists Attribute.switch. split.
    + simpl. tauto.
    + simpl. unfold Switch.SmartThingsSwitch.unique_id. now rewrite Hattr.
  - rewrite Hsw in H. injection H as <-.
    exists (Switch.SmartThingsCustomSwitch._attribute sw). split.
    + simpl in *. tauto.
    + reflexivity.
Qed.

Lemma extend_assigned_ok (d : Device) (assigned : list string) :
  forall switches es,
  Switch.extend_assigned assigned switches = Ok es ->
  exists built attrs,
    es = (switches ++ built)%list
    /\ Forall2 (fun c a => In (c, a) registry_attributes) assigned attrs
    /\ map (entity_unique_id d) built = map (fun a => device_id d ++ "." ++ a) attrs.
Proof.
  induction assigned as [| c rest IH]; simpl; intros switches es H.
  - injection H as <-. exists [], []. rewrite List.app_nil_r. repeat split. constructor.
  - destruct (Switch.switches_for_capability c) as [one |] eqn:Hc; [| discriminate].
    destruct (switches_for_capability_unique_id d c one Hc) as (a & Hin & Hid).
    destruct (IH _ _ H) as (built & attrs & -> & Hall & Hids).
    exists (one ++ built)%list, (a :: attrs). split; [| split].
    + now rewrite List.app_assoc.
    + now constructor.
    + rewrite List.map_app, Hid, Hids. reflexivity.
Qed.

Lemma extend_assigned_raise (assigned : list string) :
  forall switches e,
  Switch.extend_assigned assigned switches = Raise e ->
  e = KeyError /\ exists c, In c assigned /\ ~ In c Switch.registry_keys.
Proof.
  induction assigned as [| c rest IH]; simpl; intros switches e H; [discriminate |].
  destruct (Switch.switches_for_capability c) as [one |] eqn:Hc.
  - destruct (IH _ _ H) as (-> & c' & Hin & Hout). eauto.
  - injection H as <-.
    destruct (switches_for_capability_cases c)
      as [[Hout Hraise] | [[-> (sw & Hsw & _)] | (sw & Hsw & _)]]; try congruence.
    split; [congruence | eauto].
Qed.

Lemma registry_attributes_inj (c c' a a' : string) :
  In (c, a) registry_attributes -> In (c', a') registry_attributes ->
  (c = c' <-> a = a').
Proof.
  simpl. intros H H'.
  repeat match goal with
         | H : _ \/ _ |- _ => destruct H
         | H : (_, _) = (_, _) |- _ => injection H as <- <-
         | H : False |- _ => destruct H
         end; split; intros; (reflexivity || discriminate).
Qed.

Lemma registry_attributes_NoDup (assigned attrs : list string) :
  Forall2 (fun c a => In (c, a) registry_attributes) assigned attrs ->
  List.NoDup assigned -> List.NoDup attrs.
Proof.
  induction 1 as [| c a assigned attrs Hca Hall IH]; intros Hnd; [constructor |].
  inversion Hnd as [| ? ? Hnotin Hnd']; subst. constructor; [| now apply IH].
  intros Hin. apply Hnotin. clear IH Hnd Hnd' Hnotin.
  induction Hall as [| c' a' assigned attrs Hca' Hall IH]; [destruct Hin |].
  destruct Hin as [-> | Hin].
  - left. symmetry. now apply (registry_attributes_inj c c' a a).
  - right. now apply IH.
Qed.

Lemma NoDup_map_prefix (p : string) (l : list string) :
  List.NoDup l -> List.NoDup (map (fun a => p ++ a) l).
Proof.
  induction 1 as [| a l Hnotin Hnd IH]; simpl; constructor; [| exact IH].
  intros Hin. apply in_map_iff in Hin. destruct Hin as (b & Heq & Hb).
  apply append_inj_l in Heq. now subst.
Qed.

(** X4: when the capabilities assigned to a device are pairwise distinct,
    the entities that the setup builds for it have pairwise distinct unique
    ids, the two entities of a Samsung OCF climate device included. *)
Theorem device_switches_unique_ids (d : Device) (w : World)
    (assigned : list string) (climate : bool) (es : list Switch.entity) :
  List.NoDup assigned ->
  Switch.device_switches d w assigned climate [] = Ok es ->
  List.NoDup (map (entity_unique_id d) es).
Proof.
  intros Hnd H. unfold Switch.device_switches in H.
  destruct (Switch.extend_assigned assigned []) as [sw |] eqn:Hext; [| discriminate].
  destruct (extend_assigned_ok d _ _ _ Hext) as (built & attrs & -> & Hall & Hids).
  simpl in *.
  pose proof (registry_attributes_NoDup _ _ Hall Hnd) as Hattrs.
  assert (Hplain : List.NoDup (map (entity_unique_id d) built)).
  { rewrite Hids.
    rewrite <- (List.map_map (fun a => "." ++ a) (fun a => device_id d ++ a)).
    apply NoDup_map_prefix, NoDup_map_prefix, Hattrs. }
  assert (Hboth : List.NoDup (map (entity_unique_id d)
                                (built ++ Switch.samsung_ocf_switches))).
  { rewrite List.map_app, Hids.
    change (map (entity_unique_id d) Switch.samsung_ocf_switches)
      with (map (fun a => device_id d ++ "." ++ a) ["light"; "volume"]).
    rewrite <- List.map_app.
    rewrite <- (List.map_map (fun a => "." ++ a) (fun a => device_id d ++ a)).
    apply NoDup_map_prefix, NoDup_map_prefix.
    apply NoDup_ListNoDup, NoDup_app.
    split; [now apply NoDup_ListNoDup |]. split.
    - intros a Ha Hextra. apply list_elem_of_In in Ha, Hextra.
      assert (Hreg : exists c, In (c, a) registry_attributes).
      { clear - Hall Ha. induction Hall as [| c a' ? ? Hca Hall IH]; [destruct Ha |].
        destruct Ha as [-> | Ha]; [exists c; exact Hca | now apply IH]. }
      destruct Hreg as (c & Hc). simpl in Hc, Hextra.
      repeat match goal with
             | H : _ \/ _ |- _ => destruct H
             | H : (_, _) = (_, _) |- _ => injection H as <- <-
             | H : False |- _ => destruct H
             end; discriminate.
    - apply NoDup_ListNoDup.
      repeat (constructor; [simpl; intuition discriminate |]). constructor. }
  repeat match type of H with
         | context [if ?b then _ else _] => destruct b
         end; injection H as <-; assumption.
Qed.

Lemma device_switches_unique_ids_witness :
  exists es,
    Switch.device_switches Examples.air_conditioner (Examples.samsung_world "ARTIK051")
      ["switch"; "custom.spiMode"] true [] = Ok es
    /\ length es = 4%nat
    /\ List.NoDup (map (entity_unique_id Examples.air_conditioner) es).
Proof.
  eexists. split; [reflexivity |]. split; [reflexivity |].
  apply (device_switches_unique_ids Examples.air_conditioner
           (Examples.samsung_world "ARTIK051") ["switch"; "custom.spiMode"] true).
  - repeat (constructor; [simpl; intuition discriminate |]). constructor.
  - reflexivity.
Defined.

Lemma extend_assigned_each (assigned : list string) :
  forall switches es,
  Switch.extend_assigned assigned switches = Ok es ->
  exists built, es = (switches ++ built)%list
                /\ Forall2 (fun c e => Switch.switches_for_capability c = Ok [e])
                           assigned built
                /\ forall sw, ~ In (Switch.Ocf sw) built.
Proof.
  induction assigned as [| c rest IH]; simpl; intros switches es H.
  - injection H as <-. exists []. rewrite List.app_nil_r.
    split; [reflexivity |]. split; [constructor | tauto].
  - destruct (Switch.switches_for_capability c) as [one |] eqn:Hc; [| discriminate].
    destruct (IH _ _ H) as (built & -> & Heach & Hno).
    exists (one ++ built)%list. rewrite List.app_assoc. split; [reflexivity |].
    destruct (switches_for_capability_cases c)
      as [[_ Hraise] | [[-> (sw & Hsw & _)] | (sw & Hsw & _)]]; try congruence.
    + rewrite Hsw in Hc. injection Hc as <-. simpl. split; [now constructor |].
      intros sw' [Heq | Hin]; [discriminate | now apply (Hno sw')].
    + rewrite Hsw in Hc. injection Hc as <-. simpl. split; [now constructor |].
      intros sw' [Heq | Hin]; [discriminate | now apply (Hno sw')].
Qed.

Lemma extend_assigned_total (assigned : list string) :
  (forall c, In c assigned -> In c Switch.registry_keys) ->
  forall switches, exists es, Switch.extend_assigned assigned switches = Ok es.
Proof.
  induction assigned as [| c rest IH]; simpl; intros Hall switches; [eauto |].
  destruct (switches_for_capability_cases c)
    as [[Hout _] | [[-> (sw & Hsw & _)] | (sw & Hsw & _)]].
  - exfalso. apply Hout. apply Hall. now left.
  - rewrite Hsw. apply IH. intros c Hc. apply Hall. now right.
  - rewrite Hsw. apply IH. intros c' Hc'. apply Hall. now right.
Qed.

(** The test that guards the two extra entities. *)
Lemma samsung_climate_test (d : Device) (w : World) (climate : bool) :
  Py.eq (Status.value (attributes (status w) Attribute.mnmn))
        (VStr "Samsung Electronics")
  && String.eqb (type d) "OCF"
  && (Py.truthy (VStr Capability.execute)
      && climate
      && negb (existsb (Py.eq (Status.value (attributes (status w) "binaryId")))
                 [VStr "SAC_SLIM1WAY"; VStr "SAC_BIG_SLIM1WAY"; VStr "MIM-H04EN"]))
  = true
  <-> samsung_climate d w climate.
Proof.
  unfold samsung_climate, snapshot_value, excluded_models.
  rewrite !andb_true_iff, negb_true_iff, py_eq_str, String.eqb_eq.
  split.
  - intros ((Hmn & Htype) & (_ & Hcl) & Hmodel).
    split; [exact Htype |]. split; [exact Hcl |]. split; [exact Hmn |].
    intros m Hm Heq. rewrite Heq in Hmodel.
    destruct Hm as [<- | [<- | [<- | []]]]; simpl in Hmodel;
      rewrite ?orb_true_r in Hmodel; discriminate.
  - intros (Htype & Hcl & Hmn & Hmodel).
    split; [split; assumption |]. split; [split; [reflexivity | exact Hcl] |].
    simpl. rewrite orb_false_r.
    assert (Hno : forall m, In m ["SAC_SLIM1WAY"; "SAC_BIG_SLIM1WAY"; "MIM-H04EN"] ->
              Py.eq (Status.value (attributes (status w) "binaryId")) (VStr m) = false).
    { intros m Hm.
      destruct (Py.eq (Status.value (attributes (status w) "binaryId")) (VStr m)) eqn:E;
        [| reflexivity].
      apply py_eq_str in E. exfalso. exact (Hmodel m Hm E). }
    rewrite !Hno by (simpl; tauto). reflexivity.
Qed.

(** X5: one round of the setup loop fails, with [KeyError], when some
    assigned capability is not a registry key.  When all are registry
    keys it builds, in order, the one entity of each assigned capability,
    none of them a paged switch; and it appends the paged light switch and
    the volume switch exactly for a device of type "OCF" made by "Samsung
    Electronics" with the climate platform assigned and a model other than
    the three excluded ones. *)
Theorem device_switches_outcome (d : Device) (w : World)
    (assigned : list string) (climate : bool) :
  ((exists c, In c assigned /\ ~ In c Switch.registry_keys) ->
   Switch.device_switches d w assigned climate [] = Raise KeyError)
  /\ ((forall c, In c assigned -> In c Switch.registry_keys) ->
      exists built,
        Forall2 (fun c e => Switch.switches_for_capability c = Ok [e]) assigned built
        /\ (forall sw, ~ In (Switch.Ocf sw) built)
        /\ (samsung_climate d w climate ->
            Switch.device_switches d w assigned climate [] =
              Ok (built ++ Switch.samsung_ocf_switches)%list)
        /\ (~ samsung_climate d w climate ->
            Switch.device_switches d w assigned climate [] = Ok built)).
Proof.
  split.
  - intros (c & Hin & Hout). unfold Switch.device_switches.
    destruct (Switch.extend_assigned assigned []) as [es | e] eqn:Hext.
    + exfalso. revert Hext. generalize (@nil Switch.entity). clear - Hin Hout.
      induction assigned as [| c' rest IH]; simpl; intros acc Hext; [destruct Hin |].
      destruct (Switch.switches_for_capability c') as [one |] eqn:Hc; [| discriminate].
      destruct Hin as [-> | Hin]; [| now apply (IH Hin _ Hext)].
      destruct (switches_for_capability_cases c)
        as [[_ Hraise] | [[-> (sw & Hsw & _)] | (sw & Hsw & _ & Hattr)]];
        try congruence.
      * apply Hout. rewrite registry_keys_eq. now left.
      * apply Hout. rewrite registry_keys_eq. simpl in *.
        destruct Hattr as [H | [H | [H | []]]]; injection H as <- _; tauto.
    + destruct (extend_assigned_raise _ _ _ Hext) as (-> & _). reflexivity.
  - intros Hall.
    destruct (extend_assigned_total assigned Hall []) as (built & Hext).
    destruct (extend_assigned_each _ _ _ Hext) as (built' & Heq & Heach & Hno).
    simpl in Heq. subst built'.
    exists built. split; [exact Heach |]. split; [exact Hno |].
    pose proof (samsung_climate_test d w climate) as Htest.
    unfold Switch.device_switches. rewrite Hext.
    destruct (Py.eq (Status.value (attributes (status w) Attribute.mnmn))
                    (VStr "Samsung Electronics")
              && String.eqb (type d) "OCF") eqn:Houter.
    + rewrite andb_true_l in Htest.
      destruct (Py.truthy (VStr Capability.execute) && climate
                && negb (existsb (Py.eq (Status.value (attributes (status w) "binaryId")))
                           [VStr "SAC_SLIM1WAY"; VStr "SAC_BIG_SLIM1WAY";
                            VStr "MIM-H04EN"])) eqn:Hinner.
      * split; [reflexivity |]. intros Hnot. exfalso. apply Hnot, Htest. reflexivity.
      * split; [| reflexivity]. intros Hyes. apply Htest in Hyes. discriminate.
    + rewrite andb_false_l in Htest.
      split; [| reflexivity]. intros Hyes. apply Htest in Hyes. discriminate.
Qed.

Lemma device_switches_outcome_witness :
  Switch.device_switches Examples.air_conditioner (Examples.samsung_world "ARTIK051")
    ["switch"; "thermostat"] true [] = Raise KeyError
  /\ Switch.device_switches Examples.air_conditioner (Examples.samsung_world "ARTIK051")
       ["switch"] true [] =
     Ok ([Switch.Generic Examples.plain_switch] ++ Switch.samsung_ocf_switches)%list
  /\ Switch.device_switches Examples.air_conditioner
       (Examples.samsung_world "SAC_SLIM1WAY") ["switch"] true [] =
     Ok [Switch.Generic Examples.plain_switch].
Proof.
  split; [| split].
  - apply (proj1 (device_switches_outcome Examples.air_conditioner
                    (Examples.samsung_world "ARTIK051") ["switch"; "thermostat"] true)).
    exists "thermostat". split; [simpl; tauto |].
    rewrite registry_keys_eq. simpl. intros [H | [H | [H | [H | []]]]]; discriminate.
  - destruct (proj2 (device_switches_outcome Examples.air_conditioner
                       (Examples.samsung_world "ARTIK051") ["switch"] true))
      as (built & Heach & _ & Hyes & _).
    + intros c [<- | []]. rewrite registry_keys_eq. now left.
    + inversion Heach as [| c e rest built' Hc Hrest]; subst.
      inversion Hrest; subst. injection Hc as <-.
      apply Hyes. unfold samsung_climate.
      split; [reflexivity |]. split; [reflexivity |]. split; [reflexivity |].
      intros m [<- | [<- | [<- | []]]]; discriminate.
  - destruct (proj2 (device_switches_outcome Examples.air_conditioner
                       (Examples.samsung_world "SAC_SLIM1WAY") ["switch"] true))
      as (built & Heach & _ & _ & Hno).
    + intros c [<- | []]. rewrite registry_keys_eq. now left.
    + inversion Heach as [| c e rest built' Hc Hrest]; subst.
      inversion Hrest; subst. injection Hc as <-.
      apply Hno. unfold samsung_climate. intros (_ & _ & _ & Hmodel).
      apply (Hmodel "SAC_SLIM1WAY"); [simpl; tauto | reflexivity].
Defined.

(** ** Further properties of the generic switch and of the media player *)

(** X6: for a generic switch as the setup loop builds it, once
    [async_turn_off] has completed with the cloud command reporting success,
    [is_on] reads [False]; when the command reports no success, [is_on]
    reads what it read before. *)
Theorem generic_switch_off_then_is_on (capability : string)
    (entities : list Switch.entity) (sw : Switch.SmartThingsSwitch.t)
    (w : World) (result : pyval) :
  Switch.switches_for_capability capability = Ok entities ->
  In (Switch.Generic sw) entities ->
  let after := state_after (Switch.SmartThingsSwitch.async_turn_off sw (Ok result) w) in
  Switch.SmartThingsSwitch.is_on sw after =
  if Py.truthy result then VBool false else Switch.SmartThingsSwitch.is_on sw w.
Proof.
  intros Hbuilt Hin. cbv zeta.
  rewrite generic_turn_off_run.
  unfold state_after, Switch.SmartThingsSwitch.is_on. simpl.
  rewrite (generic_switch_reads_switch _ _ _ Hbuilt Hin).
  destruct (Py.truthy result); [| reflexivity].
  unfold status_getattr. simpl. now rewrite attributes_patch_same.
Qed.

Lemma generic_switch_off_then_is_on_witness :
  Switch.SmartThingsSwitch.is_on Examples.plain_switch
    (state_after (Switch.SmartThingsSwitch.async_turn_off Examples.plain_switch
                    (Ok (VBool true)) Examples.no_status)) = VBool false.
Proof.
  apply (generic_switch_off_then_is_on Capability.switch
           [Switch.Generic Examples.plain_switch] Examples.plain_switch
           Examples.no_status (VBool true)).
  - reflexivity.
  - left. reflexivity.
Defined.

Lemma media_turn_on_run (w : World) (result : pyval) :
  MediaPlayer.SmartThingsMediaPlayer.async_turn_on (Ok result) w =
  (Ok tt,
   {| status := if Py.truthy result
                then patch_attribute Attribute.switch (VStr "on") (status w)
                else status w;
      trace := trace w ++
               [CallCommand "main" Capability.switch "on" []] ++ [WriteHaState] |}).
Proof.
  unfold MediaPlayer.SmartThingsMediaPlayer.async_turn_on. run.
  destruct (Py.truthy result); simpl; now rewrite <- List.app_assoc.
Qed.

Lemma media_turn_off_run (w : World) (result : pyval) :
  MediaPlayer.SmartThingsMediaPlayer.async_turn_off (Ok result) w =
  (Ok tt,
   {| status := if Py.truthy result
                then patch_attribute Attribute.switch (VStr "off") (status w)
                else status w;
      trace := trace w ++
               [CallCommand "main" Capability.switch "off" []] ++ [WriteHaState] |}).
Proof.
  unfold MediaPlayer.SmartThingsMediaPlayer.async_turn_off. run.
  destruct (Py.truthy result); simpl; now rewrite <- List.app_assoc.
Qed.

(** X7: for the media player, after a turn-on whose command reports
    success [is_on] reads [True], after such a turn-off it reads [False],
    and neither handler changes what [volume_level] reads. *)
Theorem media_player_on_off (w : World) (result : pyval) :
  Py.truthy result = true ->
  let on := state_after (MediaPlayer.SmartThingsMediaPlayer.async_turn_on (Ok result) w) in
  let off := state_after (MediaPlayer.SmartThingsMediaPlayer.async_turn_off (Ok result) w) in
  MediaPlayer.SmartThingsMediaPlayer.is_on on = VBool true
  /\ MediaPlayer.SmartThingsMediaPlayer.is_on off = VBool false
  /\ MediaPlayer.SmartThingsMediaPlayer.volume_level on =
     MediaPlayer.SmartThingsMediaPlayer.volume_level w
  /\ MediaPlayer.SmartThingsMediaPlayer.volume_level off =
     MediaPlayer.SmartThingsMediaPlayer.volume_level w.
Proof.
  intros Hok. cbv zeta. rewrite media_turn_on_run, media_turn_off_run, Hok.
  unfold state_after, MediaPlayer.SmartThingsMediaPlayer.is_on,
    MediaPlayer.SmartThingsMediaPlayer.volume_level, status_getattr. simpl.
  rewrite !attributes_patch_same.
  rewrite !(attributes_patch_other Attribute.switch Attribute.volume) by discriminate.
  repeat split; reflexivity.
Qed.

Lemma media_player_on_off_witness :
  MediaPlayer.SmartThingsMediaPlayer.is_on
    (state_after (MediaPlayer.SmartThingsMediaPlayer.async_turn_on (Ok (VBool true))
                    (Examples.volume_world 30))) = VBool true
  /\ MediaPlayer.SmartThingsMediaPlayer.volume_level
       (state_after (MediaPlayer.SmartThingsMediaPlayer.async_turn_off (Ok (VBool true))
                       (Examples.volume_world 30))) = VInt 30.
Proof.
  destruct (media_player_on_off (Examples.volume_world 30) (VBool true) eq_refl)
    as (Hon & _ & _ & Hvol).
  split; [exact Hon | exact Hvol].
Defined.

(** ** Further properties of the custom-capability switch *)

Lemma patch_attribute_twice (a : string) (v v' : pyval) (st : gmap string Status.t) :
  patch_attribute a v (patch_attribute a v' st) = patch_attribute a v st.
Proof.
  unfold patch_attribute at 1. rewrite attributes_patch_same. simpl.
  unfold patch_attribute. now rewrite insert_insert_eq.
Qed.

Section CustomSwitchMore.
Import Switch.SmartThingsCustomSwitch.

Variable self : t.
Variable w : World.

(** X8: whatever the command returns, a custom-switch write leaves every
    attribute other than the mapped one as it was, and keeps the unit and
    the data of the mapped attribute. *)
Theorem custom_switch_write_frame (result : pyval) :
  let off := state_after (async_turn_off self (Ok result) w) in
  let on := state_after (async_turn_on self (Ok result) w) in
  (forall a, a <> _attribute self ->
             attributes (status off) a = attributes (status w) a
             /\ attributes (status on) a = attributes (status w) a)
  /\ Status.unit (attributes (status off) (_attribute self)) =
     Status.unit (attributes (status w) (_attribute self))
  /\ Status.data (attributes (status off) (_attribute self)) =
     Status.data (attributes (status w) (_attribute self))
  /\ Status.unit (attributes (status on) (_attribute self)) =
     Status.unit (attributes (status w) (_attribute self))
  /\ Status.data (attributes (status on) (_attribute self)) =
     Status.data (attributes (status w) (_attribute self)).
Proof.
  cbv zeta. rewrite custom_turn_off_run, custom_turn_on_run.
  unfold state_after. simpl.
  destruct (Py.truthy result).
  - split.
    + intros a Hne. split; apply attributes_patch_other; congruence.
    + rewrite !attributes_patch_same. repeat split; reflexivity.
  - repeat split; reflexivity.
Qed.

(** X9: of two successive custom-switch writes, in each of the four
    orders of turn-on and turn-off, when the later command reports success
    the later write decides the snapshot: it is the snapshot that the
    later write alone would have left, whatever the earlier command
    returned. *)
Theorem custom_switch_last_write_wins (first second : pyval) :
  Py.truthy second = true ->
  status (state_after (async_turn_off self (Ok second)
                         (state_after (async_turn_on self (Ok first) w)))) =
    status (state_after (async_turn_off self (Ok second) w))
  /\ status (state_after (async_turn_off self (Ok second)
                            (state_after (async_turn_off self (Ok first) w)))) =
    status (state_after (async_turn_off self (Ok second) w))
  /\ status (state_after (async_turn_on self (Ok second)
                            (state_after (async_turn_off self (Ok first) w)))) =
    status (state_after (async_turn_on self (Ok second) w))
  /\ status (state_after (async_turn_on self (Ok second)
                            (state_after (async_turn_on self (Ok first) w)))) =
    status (state_after (async_turn_on self (Ok second) w)).
Proof.
  intros Hok. rewrite !custom_turn_off_run, !custom_turn_on_run, Hok.
  unfold state_after. simpl.
  destruct (Py.truthy first); rewrite ?patch_attribute_twice; repeat split; reflexivity.
Qed.

(** X10: for a custom switch on the [volume] attribute with a string or
    integer on-value, after a write whose command reports success [is_on]
    is [True] after turn-on, and after turn-off it is the comparison of
    the off-value with the on-value. *)
Theorem custom_switch_write_then_read (result : pyval) :
  _attribute self = Attribute.volume ->
  (exists s, _on_value self = VStr s) \/ (exists n, _on_value self = VInt n) ->
  Py.truthy result = true ->
  is_on self (state_after (async_turn_on self (Ok result) w)) = VBool true
  /\ is_on self (state_after (async_turn_off self (Ok result) w)) =
     VBool (Py.eq (_off_value self) (_on_value self)).
Proof.
  intros Hvol Hon Hok.
  rewrite custom_turn_off_run, custom_turn_on_run, Hok.
  unfold state_after, is_on, status_getattr. simpl.
  rewrite Hvol. simpl.
  rewrite !attributes_patch_same. simpl.
  destruct Hon as [(s & ->) | (n & ->)]; simpl.
  - now rewrite String.eqb_refl.
  - now rewrite Z.eqb_refl.
Qed.

End CustomSwitchMore.

Lemma custom_switch_last_write_wins_witness :
  status (state_after (Switch.SmartThingsCustomSwitch.async_turn_off Examples.audio_switch
                         (Ok (VBool true))
                         (state_after (Switch.SmartThingsCustomSwitch.async_turn_on
                                         Examples.audio_switch (Ok (VBool true))
                                         (Examples.volume_world 30)))))
  = status (state_after (Switch.SmartThingsCustomSwitch.async_turn_off
                           Examples.audio_switch (Ok (VBool true))
                           (Examples.volume_world 30))).
Proof.
  exact (proj1 (custom_switch_last_write_wins Examples.audio_switch
                  (Examples.volume_world 30) (VBool true) (VBool true) eq_refl)).
Defined.

Lemma custom_switch_write_then_read_witness :
  Switch.SmartThingsCustomSwitch.is_on Examples.audio_switch
    (state_after (Switch.SmartThingsCustomSwitch.async_turn_on Examples.audio_switch
                    (Ok (VBool true)) (Examples.volume_world 30))) = VBool true
  /\ Switch.SmartThingsCustomSwitch.is_on Examples.audio_switch
       (state_after (Switch.SmartThingsCustomSwitch.async_turn_off Examples.audio_switch
                       (Ok (VBool true)) (Examples.volume_world 30))) = VBool false.
Proof.
  apply (custom_switch_write_then_read Examples.audio_switch
           (Examples.volume_world 30) (VBool true)).
  - reflexivity.
  - right. exists 100. reflexivity.
  - reflexivity.
Defined.

(** ** Exceptions of the cloud call *)

(** X11: when the awaited cloud call raises, a custom-switch or
    paged-switch write raises the same exception right after the call:
    the snapshot and the adapter are as before, and no state-changed
    notification is emitted. *)
Theorem writes_propagate_exceptions (e : exn) :
  (forall (self : Switch.SmartThingsCustomSwitch.t) (w : World),
     let off := Switch.SmartThingsCustomSwitch.async_turn_off self (Raise e) w in
     let on := Switch.SmartThingsCustomSwitch.async_turn_on self (Raise e) w in
     outcome_of off = Raise e /\ outcome_of on = Raise e
     /\ status (state_after off) = status w /\ status (state_after on) = status w
     /\ ~ In WriteHaState (skipn (length (trace w)) (trace (state_after off)))
     /\ ~ In WriteHaState (skipn (length (trace w)) (trace (state_after on))))
  /\ (forall (s : Switch.SamsungOcfSwitch.state),
        let off := Switch.SamsungOcfSwitch.async_turn_off (Raise e) s in
        let on := Switch.SamsungOcfSwitch.async_turn_on (Raise e) s in
        outcome_of off = Raise e /\ outcome_of on = Raise e
        /\ Switch.SamsungOcfSwitch.self (state_after off) = Switch.SamsungOcfSwitch.self s
        /\ Switch.SamsungOcfSwitch.self (state_after on) = Switch.SamsungOcfSwitch.self s
        /\ status (Switch.SamsungOcfSwitch.world (state_after off)) =
           status (Switch.SamsungOcfSwitch.world s)
        /\ status (Switch.SamsungOcfSwitch.world (state_after on)) =
           status (Switch.SamsungOcfSwitch.world s)
        /\ ~ In WriteHaState
             (skipn (length (trace (Switch.SamsungOcfSwitch.world s)))
                    (trace (Switch.SamsungOcfSwitch.world (state_after off))))
        /\ ~ In WriteHaState
             (skipn (length (trace (Switch.SamsungOcfSwitch.world s)))
                    (trace (Switch.SamsungOcfSwitch.world (state_after on))))).
Proof.
  assert (Hskip : forall (l : list effect) (x : effect),
            x <> WriteHaState -> ~ In WriteHaState (skipn (length l) (l ++ [x]))).
  { intros l x Hx. rewrite List.skipn_app, List.skipn_all, Nat.sub_diag. simpl.
    intros [H | []]. congruence. }
  split.
  - intros self w. cbv zeta. run.
    repeat split; try reflexivity; apply Hskip; discriminate.
  - intros s. cbv zeta. run_ocf.
    repeat split; try reflexivity; apply Hskip; discriminate.
Qed.

(** ** Extra state attributes *)

Lemma assoc_dict_set_same (k : string) (v : pyval) (d : list (string * pyval)) :
  Py.assoc k (Py.dict_set k v d) = Some v.
Proof.
  induction d as [| [k' v'] d IH]; simpl.
  - now rewrite String.eqb_refl.
  - destruct (String.eqb k k') eqn:E; simpl; rewrite E; [reflexivity | exact IH].
Qed.

Lemma assoc_dict_set_other (k k' : string) (v : pyval) (d : list (string * pyval)) :
  k <> k' -> Py.assoc k (Py.dict_set k' v d) = Py.assoc k d.
Proof.
  intros Hne. induction d as [| [k0 v0] d IH]; simpl.
  - destruct (String.eqb_spec k k'); [contradiction | reflexivity].
  - destruct (String.eqb_spec k' k0) as [-> | Hne']; simpl.
    + destruct (String.eqb_spec k k0); [contradiction | reflexivity].
    + destruct (String.eqb k k0); [reflexivity | exact IH].
Qed.

Lemma dict_set_keys (k : string) (v : pyval) (d : list (string * pyval)) :
  map fst (Py.dict_set k v d) =
  if str_in k (map fst d) then map fst d else (map fst d ++ [k])%list.
Proof.
  induction d as [| [k' v'] d IH]; simpl; [reflexivity |].
  destruct (String.eqb k k') eqn:E; simpl; [reflexivity |].
  rewrite IH. unfold str_in. now destruct (existsb (String.eqb k) (map fst d)).
Qed.

Lemma dict_set_NoDup (k : string) (v : pyval) (d : list (string * pyval)) :
  List.NoDup (map fst d) -> List.NoDup (map fst (Py.dict_set k v d)).
Proof.
  intros Hnd. rewrite dict_set_keys.
  destruct (str_in k (map fst d)) eqn:E; [exact Hnd |].
  apply str_in_false in E.
  apply NoDup_ListNoDup, NoDup_app. split; [now apply NoDup_ListNoDup |]. split.
  - intros x Hx Hk. apply list_elem_of_In in Hx, Hk.
    destruct Hk as [<- | []]. contradiction.
  - apply NoDup_ListNoDup. constructor; [simpl; tauto | constructor].
Qed.

Lemma collected_state_attributes (w : World) (l : list string) :
  forall (acc : list (string * pyval)) (k : string),
  let collected :=
    fold_left
      (fun state_attributes attribute =>
         let value := Status.value (attributes (status w) attribute) in
         if Py.is_not_none value
         then Py.dict_set attribute value state_attributes
         else state_attributes) l acc in
  Py.assoc k collected =
    (if str_in k l && Py.is_not_none (snapshot_value w k)
     then Some (snapshot_value w k) else Py.assoc k acc)
  /\ (List.NoDup (map fst acc) -> List.NoDup (map fst collected)).
Proof.
  unfold snapshot_value.
  induction l as [| a l IH]; intros acc k; cbv zeta; simpl.
  - split; [reflexivity | tauto].
  - destruct (IH (if Py.is_not_none (Status.value (attributes (status w) a))
                  then Py.dict_set a (Status.value (attributes (status w) a)) acc
                  else acc) k) as [Hlook Hnd].
    cbv zeta in Hlook, Hnd. unfold str_in in *. split.
    + rewrite Hlook.
      destruct (existsb (String.eqb k) l
                && Py.is_not_none (Status.value (attributes (status w) k))) eqn:E.
      * apply andb_true_iff in E. destruct E as [E1 E2]. rewrite E1, E2.
        now rewrite orb_true_r.
      * destruct (String.eqb_spec k a) as [-> | Hne]; simpl.
        -- destruct (Py.is_not_none (Status.value (attributes (status w) a))) eqn:Ha.
           ++ apply assoc_dict_set_same.
           ++ rewrite andb_false_r in *. reflexivity.
        -- rewrite E.
           destruct (Py.is_not_none (Status.value (attributes (status w) a)));
             [now apply assoc_dict_set_other | reflexivity].
    + intros Hacc. apply Hnd.
      destruct (Py.is_not_none (Status.value (attributes (status w) a)));
        [now apply dict_set_NoDup | exact Hacc].
Qed.

(** X12: [extra_state_attributes] of a generic or custom switch is empty
    when the switch lists no extra attributes; otherwise it maps exactly
    the listed attributes whose stored value is not [None] to that value,
    each key once. *)
Theorem extra_state_attributes_lookup (w : World) (k : string) :
  (forall sw : Switch.SmartThingsSwitch.t,
     let found := Switch.SmartThingsSwitch.extra_state_attributes sw w in
     List.NoDup (map fst found)
     /\ Py.assoc k found =
        match Switch.SmartThingsSwitch._extra_state_attributes sw with
        | None => None
        | Some listed =>
            if str_in k listed && Py.is_not_none (snapshot_value w k)
            then Some (snapshot_value w k) else None
        end)
  /\ (forall sw : Switch.SmartThingsCustomSwitch.t,
        let found := Switch.SmartThingsCustomSwitch.extra_state_attributes sw w in
        List.NoDup (map fst found)
        /\ Py.assoc k found =
           match Switch.SmartThingsCustomSwitch._extra_state_attributes sw with
           | None => None
           | Some listed =>
               if str_in k listed && Py.is_not_none (snapshot_value w k)
               then Some (snapshot_value w k) else None
           end).
Proof.
  split; intros sw; cbv zeta.
  - unfold Switch.SmartThingsSwitch.extra_state_attributes.
    destruct (Switch.SmartThingsSwitch._extra_state_attributes sw) as [listed |].
    + destruct (collected_state_attributes w listed [] k) as [Hlook Hnd].
      cbv zeta in Hlook, Hnd. split; [apply Hnd; constructor | exact Hlook].
    + split; [constructor | reflexivity].
  - unfold Switch.SmartThingsCustomSwitch.extra_state_attributes.
    destruct (Switch.SmartThingsCustomSwitch._extra_state_attributes sw) as [listed |].
    + destruct (collected_state_attributes w listed [] k) as [Hlook Hnd].
      cbv zeta in Hlook, Hnd. split; [apply Hnd; constructor | exact Hlook].
    + split; [constructor | reflexivity].
Qed.

Lemma extra_state_attributes_lookup_witness :
  Py.assoc "volume"
    (Switch.SmartThingsCustomSwitch.extra_state_attributes Examples.verbose_switch
       (Examples.volume_world 30)) = Some (VInt 30)
  /\ Py.assoc "mnmn"
       (Switch.SmartThingsCustomSwitch.extra_state_attributes Examples.verbose_switch
          (Examples.volume_world 30)) = None.
Proof.
  split.
  - exact (proj2 (proj2 (extra_state_attributes_lookup (Examples.volume_world 30) "volume")
                    Examples.verbose_switch)).
  - exact (proj2 (proj2 (extra_state_attributes_lookup (Examples.volume_world 30) "mnmn")
                    Examples.verbose_switch)).
Defined.

(** ** Further properties of the paged switch *)

Section PagedSwitchMore.
Import Switch.SamsungOcfSwitch OcfView.

Lemma str_map_length (f : ascii -> ascii) (s : string) :
  String.length (Py.str_map f s) = String.length s.
Proof. induction s as [| c s IH]; simpl; congruence. Qed.

Lemma str_map_chars (f : ascii -> ascii) (s : string) :
  list_ascii_of_string (Py.str_map f s) = map f (list_ascii_of_string s).
Proof. induction s as [| c s IH]; simpl; congruence. Qed.

Lemma slug_char (c : ascii) :
  let c' := if Ascii.eqb (Py.lower_char c) " " then "_"%char else Py.lower_char c in
  c' <> " "%char /\ Py.lower_char c' = c'.
Proof.
  destruct c as [[] [] [] [] [] [] [] []]; vm_compute; split; congruence.
Qed.

(** X13: for a name of ASCII characters, the unique id of a paged switch
    is the device id, a dot, and the name with its letters lowered and its
    spaces replaced by underscores: that last part is as long as the name
    and holds neither a space nor a capital letter. *)
Theorem ocf_unique_id_slug (me : t) (d : Device) :
  Forall (fun c => (nat_of_ascii c < 128)%nat) (list_ascii_of_string (_name me)) ->
  exists slug,
    unique_id me d = device_id d ++ "." ++ slug
    /\ String.length slug = String.length (_name me)
    /\ Forall (fun c => c <> " "%char /\ Py.lower_char c = c)
              (list_ascii_of_string slug).
Proof.
  intros _.
  exists (Py.replace_char " " "_" (Py.lower (_name me))).
  split; [reflexivity |]. split.
  - unfold Py.replace_char, Py.lower. now rewrite !str_map_length.
  - unfold Py.replace_char, Py.lower. rewrite !str_map_chars, List.map_map.
    apply List.Forall_forall. intros c Hc. apply in_map_iff in Hc.
    destruct Hc as (x & <- & _). apply slug_char.
Qed.

Lemma ocf_unique_id_slug_witness :
  unique_id (init "/mode/vs/0" "x.com.samsung.da.options" (VList []) (VList [])
               "Night Light" None None) Examples.air_conditioner = "d1.night_light".
Proof.
  destruct (ocf_unique_id_slug
              (init "/mode/vs/0" "x.com.samsung.da.options" (VList []) (VList [])
                 "Night Light" None None) Examples.air_conditioner) as (slug & Hid & _).
  - simpl. repeat (constructor; [vm_compute; lia |]). constructor.
  - reflexivity.
Defined.

(** X14: a read of [is_on] changes neither the snapshot nor any
    constructor argument of the adapter; only the two flags and the trace
    can differ afterwards. *)
Theorem ocf_is_on_preserves (s : state) :
  let after := state_after (is_on s) in
  status (world after) = status (world s)
  /\ self after =
     mk (_page (self s)) (_key (self s)) (_on_value (self s)) (_off_value (self s))
        (_name (self s)) (_on_icon (self s)) (_off_icon (self s))
        (execute_state (self after)) (init_bool (self after)).
Proof.
  cbv zeta. run_ocf. destruct s as [[] w]. simpl.
  repeat
    match goal with
    | |- context [match ?o with Ok _ => _ | Raise _ => _ end] => destruct o; simpl
    | |- context [if ?b then _ else _] => destruct b; simpl
    end; split; reflexivity.
Qed.

(** X15: on a device whose snapshot has no data attribute, a read of
    [is_on] raises [TypeError]; it has issued the page visit if
    [init_bool] was not set, and it leaves both flags as they were. *)
Theorem ocf_is_on_without_data (s : state) :
  status (world s) !! Attribute.data = None ->
  is_on s = (Raise TypeError, visited s).
Proof.
  intros Hnone. apply is_on_href_raises.
  unfold attributes. now rewrite Hnone.
Qed.

Lemma ocf_is_on_without_data_witness :
  is_on {| self := Examples.light; world := Examples.no_status |} =
  (Raise TypeError,
   {| self := Examples.light;
      world := {| status := ∅; trace := [CallExecute "/mode/vs/0" None] |} |}).
Proof.
  apply (ocf_is_on_without_data {| self := Examples.light; world := Examples.no_status |}).
  reflexivity.
Defined.

(** A read that finds the watched page but no value at the watched key. *)
Lemma is_on_no_payload (s : state) (e : exn) :
  href_matches s = true ->
  watched_output s = Raise e ->
  is_on s = (Raise e, seen s).
Proof.
  unfold href_matches, watched_output. intros Hhref Hout.
  destruct s as [me w]. simpl in *.
  destruct (Py.getitem (Status.data (attributes (status w) Attribute.data))
                       (VStr "href")) as [href |] eqn:H; [| discriminate].
  run_ocf. unfold seen, visited. simpl.
  destruct (init_bool me); simpl; rewrite H; simpl; rewrite Hhref; simpl.
  all: destruct (Py.getitem (Status.value (attributes (status w) Attribute.data))
                            (VStr "payload")) as [payload |]; simpl.
  all: try (rewrite Hout; reflexivity).
  all: injection Hout as ->; reflexivity.
Qed.

(** X16: a read of [is_on] that finds the watched page but no value at the
    watched key raises the lookup's exception after having set
    [init_bool], so that the reads after it issue no page visit; the
    cached flag is untouched. *)
Theorem ocf_is_on_payload_raises (s : state) (e : exn) :
  href_matches s = true ->
  watched_output s = Raise e ->
  outcome_of (is_on s) = Raise e
  /\ init_bool (self (state_after (is_on s))) = true
  /\ execute_state (self (state_after (is_on s))) = execute_state (self s)
  /\ trace (world (state_after (is_on (state_after (is_on s))))) =
     trace (world (state_after (is_on s))).
Proof.
  intros Hhref Hout.
  rewrite (is_on_no_payload s e Hhref Hout).
  unfold outcome_of, state_after. simpl.
  assert (Hseen : is_on (seen s) = (Raise e, seen s)).
  { destruct s as [[page key on off name i1 i2 es ib] w].
    rewrite (is_on_no_payload _ e).
    - destruct ib; reflexivity.
    - destruct ib; exact Hhref.
    - destruct ib; exact Hout. }
  rewrite Hseen. repeat split; reflexivity.
Qed.

Lemma ocf_is_on_payload_raises_witness :
  outcome_of (is_on {| self := Examples.two_valued;
                       world := {| status :=
                                     {[ Attribute.data :=
                                          Status.mk (VDict [("payload", VDict [])]) VNone
                                            (VDict [("href", VStr "/mode/vs/0")]) ]};
                                   trace := [] |} |}) = Raise KeyError.
Proof.
  apply (ocf_is_on_payload_raises _ KeyError); reflexivity.
Defined.

(** X17: with an empty on-value list, every read of [is_on] that finds the
    watched page and a value at the watched key raises [IndexError]. *)
Theorem ocf_is_on_empty_on_value (s : state) (output : pyval) :
  _on_value (self s) = VList [] ->
  href_matches s = true ->
  watched_output s = Ok output ->
  is_on s = (Raise IndexError, seen s).
Proof.
  intros Hempty Hhref Hout.
  rewrite (is_on_watched_page s output Hhref Hout), Hempty. reflexivity.
Qed.

Lemma ocf_is_on_empty_on_value_witness :
  outcome_of
    (is_on {| self := init "/mode/vs/0" "x.com.samsung.da.options" (VList [])
                        (VList [VStr "Light_Off"]) "Light" None None;
              world := Examples.page_world "/mode/vs/0" [VStr "Light_On"] |})
  = Raise IndexError.
Proof.
  rewrite (ocf_is_on_empty_on_value _ (VList [VStr "Light_On"])); reflexivity.
Defined.

End PagedSwitchMore.

(** ** Reading the paged switch after a write, and reading it twice *)

Section PagedSwitchCompose.
Import Switch.SamsungOcfSwitch OcfView.

Lemma list_not_among_strings (l : list pyval) (ys : list string) :
  existsb (Py.eq (VList l)) (map VStr ys) = false.
Proof. induction ys as [| y ys IH]; simpl; [reflexivity | exact IH]. Qed.

Lemma string_among_strings (x : string) (ys : list string) :
  existsb (Py.eq (VStr x)) (map VStr ys) = str_in x ys.
Proof.
  unfold str_in. induction ys as [| y ys IH]; simpl; [reflexivity |].
  f_equal. exact IH.
Qed.

(** The read that follows a successful write: the data attribute holds the
    written payload, and its [href] is the one it had. *)
Lemma is_on_after_write (s : state) (href v : pyval) :
  Py.getitem (Status.data (attributes (status (world s)) Attribute.data))
             (VStr "href") = Ok href ->
  Status.value (attributes (status (world s)) Attribute.data) =
    VDict [("payload", VDict [(_key (self s), v)])] ->
  is_on s =
  if Py.eq href (VStr (_page (self s)))
  then match Py.len (_on_value (self s)) with
       | Raise e => (Raise e, seen s)
       | Ok n =>
           if n >? 1
           then classify (Ok (_on_value (self s))) (Ok (_off_value (self s))) v (seen s)
           else classify (Py.getitem (_on_value (self s)) (VInt 0))
                         (Py.getitem (_off_value (self s)) (VInt 0)) v (seen s)
       end
  else (Ok (execute_state (self s)), visited s).
Proof.
  intros Hhref Hval.
  destruct (Py.eq href (VStr (_page (self s)))) eqn:Heq.
  - apply is_on_watched_page.
    + unfold href_matches. now rewrite Hhref.
    + unfold watched_output. rewrite Hval. simpl. now rewrite String.eqb_refl.
  - apply is_on_other_page. eauto.
Qed.

(** X18: a paged switch whose on- and off-values are non-empty lists of
    strings, the single on-value (if there is just one) not being among
    the off-values, reads back what was written: with the snapshot's data
    [href] readable, [is_on] returns [True] right after a successful
    turn-on and [False] right after a successful turn-off. *)
Theorem ocf_write_then_read (s : state) (xs ys : list string)
    (href result : pyval) :
  _on_value (self s) = VList (map VStr xs) ->
  _off_value (self s) = VList (map VStr ys) ->
  xs <> [] -> ys <> [] ->
  (forall x, xs = [x] -> ~ In x ys) ->
  Py.getitem (Status.data (attributes (status (world s)) Attribute.data))
             (VStr "href") = Ok href ->
  Py.truthy result = true ->
  outcome_of (is_on (state_after (async_turn_on (Ok result) s))) = Ok true
  /\ outcome_of (is_on (state_after (async_turn_off (Ok result) s))) = Ok false.
Proof.
  intros Hon Hoff Hxs Hys Hsingle Hhref Hok.
  rewrite ocf_turn_on_run, ocf_turn_off_run, Hok. unfold state_after. simpl.
  assert (Hmany : forall x x' xs',
            (Z.of_nat (length (map VStr (x :: x' :: xs'))) >? 1) = true).
  { intros x x' xs'. apply Z.gtb_lt. simpl length. lia. }
  split.
  - rewrite (is_on_after_write _ href (_on_value (self s))); simpl;
      [| now rewrite attributes_patch_same
       | now rewrite attributes_patch_same].
    destruct (Py.eq href (VStr (_page (self s)))); [| reflexivity].
    rewrite Hon, Hoff.
    destruct xs as [| x [| x' xs']]; [contradiction | |].
    + cbn -[Py.eq]. simpl. rewrite String.eqb_refl. reflexivity.
    + unfold Py.len. rewrite Hmany. unfold classify, Py.contains.
      rewrite !list_not_among_strings. reflexivity.
  - rewrite (is_on_after_write _ href (_off_value (self s))); simpl;
      [| now rewrite attributes_patch_same
       | now rewrite attributes_patch_same].
    destruct (Py.eq href (VStr (_page (self s)))); [| reflexivity].
    rewrite Hon, Hoff.
    destruct ys as [| y ys']; [contradiction |].
    destruct xs as [| x [| x' xs']]; [contradiction | |].
    + assert (Hx : str_in x (y :: ys') = false)
        by (apply str_in_false; now apply Hsingle).
      change (Py.len (VList (map VStr [x]))) with (@Ok Z 1).
      change (1 >? 1) with false. cbv iota.
      change (Py.getitem (VList (map VStr [x])) (VInt 0)) with (Ok (VStr x)).
      change (Py.getitem (VList (map VStr (y :: ys'))) (VInt 0)) with (Ok (VStr y)).
      unfold classify, Py.contains.
      rewrite (string_among_strings x (y :: ys')), Hx.
      rewrite (string_among_strings y (y :: ys')).
      unfold str_in. simpl. rewrite String.eqb_refl. reflexivity.
    + unfold Py.len. rewrite Hmany. unfold classify, Py.contains.
      rewrite !list_not_among_strings. reflexivity.
Qed.

Lemma ocf_write_then_read_witness :
  outcome_of (is_on (state_after (async_turn_on (Ok (VBool true))
                                    (Examples.light_at "/mode/vs/0" [VStr "Light_Off"]))))
    = Ok true
  /\ outcome_of (is_on (state_after (async_turn_off (Ok (VBool true))
                                       (Examples.two_valued_at "/other" []))))
    = Ok false.
Proof.
  split.
  - apply (ocf_write_then_read (Examples.light_at "/mode/vs/0" [VStr "Light_Off"])
             ["Light_On"] ["Light_Off"] (VStr "/mode/vs/0") (VBool true));
      try reflexivity; try discriminate.
    intros x [= <-] [H | []]. discriminate.
  - apply (ocf_write_then_read (Examples.two_valued_at "/other" [])
             ["Light_On"; "Volume_100"] ["Light_Off"; "Volume_Mute"]
             (VStr "/other") (VBool true));
      try reflexivity; try discriminate.
Defined.

Lemma is_on_read (s : state) : is_on s = read s.
Proof.
  unfold read.
  destruct (Py.getitem (Status.data (attributes (status (world s)) Attribute.data))
                       (VStr "href")) as [href | e] eqn:H.
  - destruct (Py.eq href (VStr (_page (self s)))) eqn:Heq.
    + assert (Hm : href_matches s = true) by (unfold href_matches; now rewrite H).
      destruct (watched_output s) as [output | e] eqn:Hout.
      * exact (is_on_watched_page s output Hm Hout).
      * exact (is_on_no_payload s e Hm Hout).
    + apply is_on_other_page. eauto.
  - exact (is_on_href_raises s e H).
Qed.

Ltac proj :=
  cbn [Switch.SamsungOcfSwitch.self Switch.SamsungOcfSwitch.world status trace
       Switch.SamsungOcfSwitch._page Switch.SamsungOcfSwitch._key
       Switch.SamsungOcfSwitch._on_value Switch.SamsungOcfSwitch._off_value
       Switch.SamsungOcfSwitch.execute_state Switch.SamsungOcfSwitch.init_bool
       fst snd orb outcome_of state_after].

(** The second of two reads, once the first has been followed to its end:
    it takes the same branches. *)
Ltac second_read :=
  rewrite is_on_read;
  unfold OcfView.read, OcfView.href_matches, OcfView.watched_output,
    OcfView.classify, OcfView.seen, OcfView.visited, OcfView.cached;
  proj;
  repeat match goal with
         | H : ?t = _ |- context [?t] => rewrite H; proj
         end;
  split; [reflexivity | first [intros _; reflexivity | discriminate]].

(** X19: reading [is_on] twice with no change of the snapshot in between
    gives the same answer (or the same exception) twice; and once
    [init_bool] is set or the watched page is found, the second read
    leaves adapter and device exactly as the first one left them. *)
Theorem ocf_is_on_twice (s : state) :
  outcome_of (is_on (state_after (is_on s))) = outcome_of (is_on s)
  /\ (init_bool (self s) || href_matches s = true ->
      state_after (is_on (state_after (is_on s))) = state_after (is_on s)).
Proof.
  destruct s as [[page key on off name i1 i2 es ib] w].
  rewrite (is_on_read (mkState (mk page key on off name i1 i2 es ib) w)).
  unfold read, href_matches, watched_output, seen, visited. proj.
  destruct (Py.getitem (Status.data (attributes (status w) Attribute.data))
                       (VStr "href")) as [href | e] eqn:E1; proj;
    [| destruct ib; second_read].
  destruct (Py.eq href (VStr page)) eqn:E2; proj; [| destruct ib; second_read].
  destruct (Py.getitem (Status.value (attributes (status w) Attribute.data))
                       (VStr "payload")) as [payload | e] eqn:E3; proj;
    [| destruct ib; second_read].
  destruct (Py.getitem payload (VStr key)) as [output | e] eqn:E4; proj;
    [| destruct ib; second_read].
  destruct (Py.len on) as [n | e] eqn:E5; proj; [| destruct ib; second_read].
  unfold classify, cached. proj.
  destruct (n >? 1) eqn:E6; proj.
  - destruct (Py.contains on output) as [[] | e] eqn:E7; proj;
      [destruct ib; second_read | | destruct ib; second_read].
    destruct (Py.contains off output) as [[] | e] eqn:E8; proj;
      destruct ib; second_read.
  - destruct (Py.getitem on (VInt 0)) as [x | e] eqn:E7; proj;
      [| destruct ib; second_read].
    destruct (Py.contains x output) as [[] | e] eqn:E8; proj;
      [destruct ib; second_read | | destruct ib; second_read].
    destruct (Py.getitem off (VInt 0)) as [y | e] eqn:E9; proj;
      [| destruct ib; second_read].
    destruct (Py.contains y output) as [[] | e] eqn:E10; proj;
      destruct ib; second_read.
Qed.

End PagedSwitchCompose.
